(** * doit-analytics: the chat UI's session controller and transport layer

    A shallow embedding of [frontend/src/App.jsx] (the React component's
    state and its four asynchronous handlers) and of the API client (the
    axios wrappers, among them [uploadDocument] and [chatWithContext]).

    Modelling choices, all taken from the way the code is written:

    - JavaScript strings are sequences of UTF-16 code units ([list N]), so
      that [String.prototype.trim] can be modelled with the ECMAScript
      white space table.
    - The component state is a record with one field per [useState] hook.
      A handler is a closure over ONE render's state: every read of
      [messages], [inputValue] or [loading] inside a handler sees the
      snapshot of that render, whatever was queued by [setX] meanwhile.
      Setters are queued updates; a functional updater [(prev) => ...]
      receives the latest state, a plain value replaces it.
    - An [async] handler is a resumption ([Proc]): it runs synchronously up
      to the next [await] of an HTTP request, where it is suspended until
      the transport settles the promise (fulfilled with the response data,
      or rejected with an error).  [try]/[catch]/[finally] are operations
      on resumptions. *)

From Stdlib Require Import String Ascii DecimalString.
From Stdlib Require Import List NArith ZArith Bool Lia.
From ExtLib Require Import Structures.Monad Structures.MonadExc.
Import ListNotations.
Import MonadNotation.
Local Open Scope monad_scope.
Local Open Scope N_scope.

(** ** JavaScript values *)

Module Js.

(** A string is a sequence of UTF-16 code units. *)
Definition str := list N.

(** An ASCII literal of the source. *)
Definition lit (s : string) : str :=
  List.map N_of_ascii (list_ascii_of_string s).

(** ECMAScript WhiteSpace and LineTerminator code points, the characters
    removed by [String.prototype.trim]. *)
Definition isWhiteSpace (c : N) : bool :=
  (c =? 9) || (c =? 10) || (c =? 11) || (c =? 12) || (c =? 13) || (c =? 32)
  || (c =? 160) || (c =? 5760) || ((8192 <=? c) && (c <=? 8202))
  || (c =? 8232) || (c =? 8233) || (c =? 8239) || (c =? 8287)
  || (c =? 12288) || (c =? 65279).

Fixpoint trimStart (s : str) : str :=
  match s with
  | [] => []
  | c :: r => if isWhiteSpace c then trimStart r else s
  end.

Definition trimEnd (s : str) : str := rev (trimStart (rev s)).

Definition trim (s : str) : str := trimEnd (trimStart s).

(** Truthiness of a string: only the empty string is falsy. *)
Definition truthy (s : str) : bool :=
  match s with [] => false | _ :: _ => true end.

(** A value read from an error or a response body: a string, or any
    other value, known here by the two things the code observes of it,
    whether it is truthy and the text a template literal prints for it (a
    list of validation errors is truthy and prints as [[object Object]];
    [null], [false] and [0] are falsy). *)
Inductive value : Type :=
| Str (s : str)
| Other (isTrue : bool) (shown : str).

Definition isTruthy (v : value) : bool :=
  match v with
  | Str s => truthy s
  | Other t _ => t
  end.

Definition toText (v : value) : str :=
  match v with
  | Str s => s
  | Other _ shown => shown
  end.

(** A possibly-undefined string as a value. *)
Definition ofStr (s : option str) : option value := option_map Str s.

(** [a || b] on possibly-undefined values: [a] when it is truthy. *)
Definition or_else (a b : option value) : option value :=
  match a with
  | Some v => if isTruthy v then a else b
  | None => b
  end.

(** A value interpolated in a template literal. *)
Definition interpolate (v : option value) : str :=
  match v with
  | Some x => toText x
  | None => lit "undefined"
  end.

(** A non-negative integer printed in decimal, as [String(n)] does for
    the integers up to 2^53; beyond them a double keeps 17 significant
    digits and this text is not the one printed. *)
Definition ofNat (n : N) : str :=
  lit (NilEmpty.string_of_uint (N.to_uint n)).

(** The numbers the progress computation can produce. *)
Inductive num : Type :=
| Int (n : N)
| Infinity
| NaN.

(** [Math.round(a / b)] for non-negative integers: round half up on the
    exact quotient.  It is the value the code computes in doubles as long
    as [a] is below 2^52: the double quotient is the correctly rounded
    one, and it can reach a half-integer [k + 1/2] from an exact quotient
    below it only if that quotient is within half an ulp, which needs
    [a >= 2^52].  From there on the two can differ by one, and the
    properties below that rest on exactness state the bound.  Division by
    zero follows IEEE 754. *)
Definition roundDiv (a b : N) : num :=
  if b =? 0 then (if a =? 0 then NaN else Infinity)
  else Int ((2 * a + b) / (2 * b)).

End Js.

(** ** Data model *)

Inductive Role : Type := user | assistant | system.

Definition Role_eqb (a b : Role) : bool :=
  match a, b with
  | user, user | assistant, assistant | system, system => true
  | _, _ => false
  end.

(** A transcript entry.  Fields that an object literal of the source does
    not set are [undefined] ([None]). *)
Module Message.
Record t : Type := mk
  { role : Role;
    content : Js.str;
    sources : option (list Js.str);
    metadata : option (list (Js.str * Js.str));
    timestamp : option Js.str }.
End Message.

(** An entry of the history sent to the backend: role, content and
    timestamp, nothing else. *)
Module HistoryEntry.
Record t : Type := mk
  { role : Role;
    content : Js.str;
    timestamp : option Js.str }.
End HistoryEntry.

Record File : Type := { name : Js.str; fileSize : N }.

Record DocumentSummary : Type :=
  { filename : Js.str; size : N; upload_time : Js.str }.

Record Health : Type :=
  { ollama_connected : bool; chroma_connected : bool; model : Js.str }.

Record Stats : Type :=
  { num_chunks : N; stats_model : Js.str; embedding_model : Js.str;
    has_index : bool }.

Record UploadedDocument : Type := { doc_num_chunks : N; doc_filename : Js.str }.
Record UploadResult : Type := { document : UploadedDocument }.

Record QueryBody : Type := { q_query : Js.str; q_top_k : N }.
Record QueryResult : Type := { q_answer : Js.str; q_sources : list Js.str }.

Record ChatBody : Type :=
  { query : Js.str; history : list HistoryEntry.t; top_k : N }.

Record ChatResponse : Type :=
  { answer : Js.str;
    resp_sources : option (list Js.str);
    resp_metadata : option (list (Js.str * Js.str)) }.

Record DocsResponse : Type := { documents_field : option (list DocumentSummary) }.

(** The error a rejected request carries: [error.message], a string when
    present, and [error.response?.data?.detail], which is whatever the
    backend put in its error body. *)
Record Error : Type := { message : option Js.str; detail : option Js.value }.

(** The progress event of the HTTP client; [total] is absent when the
    length is not computable. *)
Record ProgressEvent : Type := { loaded : N; total : option N }.

Inductive Tab : Type := chat | documentsTab | settings.

(** The component state, one field per [useState]. *)
Record State : Type :=
  { messages : list Message.t;
    inputValue : Js.str;
    loading : bool;
    uploading : bool;
    uploadProgress : Js.num;
    health : option Health;
    documents : list DocumentSummary;
    stats : option Stats;
    activeTab : Tab }.

(** The state of the first render. *)
Definition initialState : State :=
  {| messages := []; inputValue := []; loading := false; uploading := false;
     uploadProgress := Js.Int 0; health := None; documents := [];
     stats := None; activeTab := chat |}.

(** ** Backend endpoints *)

Inductive endpoint : Type :=
| GetHealth | PostUpload | PostQuery | PostChat | GetDocuments | DeleteClear
| GetStats.

Definition body (ep : endpoint) : Type :=
  match ep with
  | PostUpload => File
  | PostQuery => QueryBody
  | PostChat => ChatBody
  | _ => unit
  end.

Definition data (ep : endpoint) : Type :=
  match ep with
  | GetHealth => Health
  | PostUpload => UploadResult
  | PostQuery => QueryResult
  | PostChat => ChatResponse
  | GetDocuments => DocsResponse
  | DeleteClear => unit
  | GetStats => Stats
  end.

(** How a promise settles. *)
Inductive outcome (A : Type) : Type :=
| Fulfilled (a : A)
| Rejected (e : Error).
Arguments Fulfilled {A} a.
Arguments Rejected {A} e.

(** ** Asynchronous handlers as resumptions *)

Inductive Proc (A : Type) : Type :=
| Ret (a : A)
| Throw (e : Error)
| SetState (u : State -> State) (k : Proc A)
| Now (k : Js.str -> Proc A)
| Confirm (prompt : Js.str) (k : bool -> Proc A)
| Http (ep : endpoint) (b : body ep)
       (onUploadProgress : option (ProgressEvent -> State -> State))
       (k : outcome (data ep) -> Proc A).
Arguments Ret {A} a.
Arguments Throw {A} e.
Arguments SetState {A} u k.
Arguments Now {A} k.
Arguments Confirm {A} prompt k.
Arguments Http {A} ep b onUploadProgress k.

Fixpoint bindP {A B : Type} (p : Proc A) (f : A -> Proc B) : Proc B :=
  match p with
  | Ret a => f a
  | Throw e => Throw e
  | SetState u k => SetState u (bindP k f)
  | Now k => Now (fun t => bindP (k t) f)
  | Confirm q k => Confirm q (fun a => bindP (k a) f)
  | Http ep b onp k => Http ep b onp (fun o => bindP (k o) f)
  end.

(** [try { p } catch (error) { h error }] *)
Fixpoint tryCatch {A : Type} (p : Proc A) (h : Error -> Proc A) : Proc A :=
  match p with
  | Ret a => Ret a
  | Throw e => h e
  | SetState u k => SetState u (tryCatch k h)
  | Now k => Now (fun t => tryCatch (k t) h)
  | Confirm q k => Confirm q (fun a => tryCatch (k a) h)
  | Http ep b onp k => Http ep b onp (fun o => tryCatch (k o) h)
  end.

(** [try { p } finally { fin }]: [fin] runs on both exits, and an
    exception of [p] is thrown again after it. *)
Fixpoint tryFinally {A : Type} (p : Proc A) (fin : Proc unit) : Proc A :=
  match p with
  | Ret a => bindP fin (fun _ => Ret a)
  | Throw e => bindP fin (fun _ => Throw e)
  | SetState u k => SetState u (tryFinally k fin)
  | Now k => Now (fun t => tryFinally (k t) fin)
  | Confirm q k => Confirm q (fun a => tryFinally (k a) fin)
  | Http ep b onp k => Http ep b onp (fun o => tryFinally (k o) fin)
  end.

#[export] Instance Monad_Proc : Monad Proc :=
  {| ret := @Ret; bind := @bindP |}.

#[export] Instance Exc_Proc : MonadExc Error Proc :=
  {| raise := @Throw; catch := @tryCatch |}.

(** [await request]: the promise's value, or its error thrown. *)
Definition await (ep : endpoint) (b : body ep)
  (onp : option (ProgressEvent -> State -> State)) : Proc (data ep) :=
  Http ep b onp
    (fun o => match o with Fulfilled d => Ret d | Rejected e => Throw e end).

Definition newDateISO : Proc Js.str := Now (fun t => Ret t).

Definition confirm (prompt : Js.str) : Proc bool := Confirm prompt (fun a => Ret a).

(** *** The state setters of the component *)

Definition withMessages (f : list Message.t -> list Message.t) (s : State) : State :=
  {| messages := f (messages s); inputValue := inputValue s;
     loading := loading s; uploading := uploading s;
     uploadProgress := uploadProgress s; health := health s;
     documents := documents s; stats := stats s; activeTab := activeTab s |}.

Definition withInputValue (v : Js.str) (s : State) : State :=
  {| messages := messages s; inputValue := v;
     loading := loading s; uploading := uploading s;
     uploadProgress := uploadProgress s; health := health s;
     documents := documents s; stats := stats s; activeTab := activeTab s |}.

Definition withLoading (v : bool) (s : State) : State :=
  {| messages := messages s; inputValue := inputValue s;
     loading := v; uploading := uploading s;
     uploadProgress := uploadProgress s; health := health s;
     documents := documents s; stats := stats s; activeTab := activeTab s |}.

Definition withUploading (v : bool) (s : State) : State :=
  {| messages := messages s; inputValue := inputValue s;
     loading := loading s; uploading := v;
     uploadProgress := uploadProgress s; health := health s;
     documents := documents s; stats := stats s; activeTab := activeTab s |}.

Definition withUploadProgress (v : Js.num) (s : State) : State :=
  {| messages := messages s; inputValue := inputValue s;
     loading := loading s; uploading := uploading s;
     uploadProgress := v; health := health s;
     documents := documents s; stats := stats s; activeTab := activeTab s |}.

Definition withHealth (v : option Health) (s : State) : State :=
  {| messages := messages s; inputValue := inputValue s;
     loading := loading s; uploading := uploading s;
     uploadProgress := uploadProgress s; health := v;
     documents := documents s; stats := stats s; activeTab := activeTab s |}.

Definition withDocuments (v : list DocumentSummary) (s : State) : State :=
  {| messages := messages s; inputValue := inputValue s;
     loading := loading s; uploading := uploading s;
     uploadProgress := uploadProgress s; health := health s;
     documents := v; stats := stats s; activeTab := activeTab s |}.

Definition withStats (v : option Stats) (s : State) : State :=
  {| messages := messages s; inputValue := inputValue s;
     loading := loading s; uploading := uploading s;
     uploadProgress := uploadProgress s; health := health s;
     documents := documents s; stats := v; activeTab := activeTab s |}.

(** [setMessages(updater)]; a plain value [v] is the updater [fun _ => v]. *)
Definition setMessages (f : list Message.t -> list Message.t) : Proc unit :=
  SetState (withMessages f) (Ret tt).
Definition setInputValue (v : Js.str) : Proc unit :=
  SetState (withInputValue v) (Ret tt).
Definition setLoading (v : bool) : Proc unit :=
  SetState (withLoading v) (Ret tt).
Definition setUploading (v : bool) : Proc unit :=
  SetState (withUploading v) (Ret tt).
Definition setUploadProgress (v : Js.num) : Proc unit :=
  SetState (withUploadProgress v) (Ret tt).
Definition setHealth (v : Health) : Proc unit :=
  SetState (withHealth (Some v)) (Ret tt).
Definition setDocuments (v : list DocumentSummary) : Proc unit :=
  SetState (withDocuments v) (Ret tt).
Definition setStats (v : Stats) : Proc unit :=
  SetState (withStats (Some v)) (Ret tt).

(** ** Transport layer (the API client) *)

(** [Math.round((progressEvent.loaded * 100) / progressEvent.total)] *)
Definition percentCompleted (progressEvent : ProgressEvent) : Js.num :=
  match total progressEvent with
  | Some t => Js.roundDiv (loaded progressEvent * 100) t
  | None => Js.NaN
  end.

Definition checkHealth : Proc Health :=
  response <- await GetHealth tt None ;;
  ret response.

Definition uploadDocument (file : File)
  (onProgress : option (Js.num -> State -> State)) : Proc UploadResult :=
  let formData := file in
  response <- await PostUpload formData
    (Some (fun progressEvent =>
       match onProgress with
       | Some cb => cb (percentCompleted progressEvent)
       | None => fun st => st
       end)) ;;
  ret response.

Definition queryDocuments (q : Js.str) (topK : N) : Proc QueryResult :=
  response <- await PostQuery {| q_query := q; q_top_k := topK |} None ;;
  ret response.

Definition chatWithContext (q : Js.str) (h : list HistoryEntry.t) (topK : N)
  : Proc ChatResponse :=
  response <- await PostChat {| query := q; history := h; top_k := topK |} None ;;
  ret response.

Definition listDocuments : Proc DocsResponse :=
  response <- await GetDocuments tt None ;;
  ret response.

Definition clearAllDocuments : Proc unit :=
  response <- await DeleteClear tt None ;;
  ret response.

Definition getStats : Proc Stats :=
  response <- await GetStats tt None ;;
  ret response.

(** ** Session controller (the App component's handlers) *)

Definition systemMessage (text : Js.str) : Message.t :=
  {| Message.role := system; Message.content := text;
     Message.sources := None; Message.metadata := None;
     Message.timestamp := None |}.

(** [docsData.documents || []]: an array is truthy, even when empty. *)
Definition documentsOrEmpty (docsData : DocsResponse) : list DocumentSummary :=
  match documents_field docsData with
  | Some l => l
  | None => []
  end.

Definition warningSign : Js.str := [9888; 65039].
Definition checkMark : Js.str := [9989].
Definition crossMark : Js.str := [10060].
Definition dquote : Js.str := [34].

Definition backendFailedText : Js.str :=
  warningSign ++ Js.lit " Backend connection failed. Please ensure the backend server is running.".

Definition initializeApp : Proc unit :=
  catch
    (healthData <- checkHealth ;;
     setHealth healthData ;;
     docsData <- listDocuments ;;
     setDocuments (documentsOrEmpty docsData) ;;
     statsData <- getStats ;;
     setStats statsData)
    (fun error =>
     setMessages (fun _ => [systemMessage backendFailedText])).

Definition uploadedText (file : File) (result : UploadResult) : Js.str :=
  checkMark ++ Js.lit " Document " ++ dquote ++ name file ++ dquote
  ++ Js.lit " uploaded successfully! ("
  ++ Js.ofNat (doc_num_chunks (document result)) ++ Js.lit " chunks)".

Definition uploadFailedText (error : Error) : Js.str :=
  crossMark ++ Js.lit " Upload failed: "
  ++ Js.interpolate (Js.or_else (detail error) (Js.ofStr (message error))).

(** [file] is [event.target.files[0]], [undefined] when nothing was
    selected.  The [finally] block also clears the file input element,
    which is not component state. *)
Definition handleFileUpload (file : option File) : Proc unit :=
  match file with
  | None => ret tt
  | Some file =>
    setUploading true ;;
    setUploadProgress (Js.Int 0) ;;
    tryFinally
      (catch
         (result <- uploadDocument file (Some withUploadProgress) ;;
          setMessages (fun prev => prev ++ [systemMessage (uploadedText file result)]) ;;
          docsData <- listDocuments ;;
          setDocuments (documentsOrEmpty docsData) ;;
          statsData <- getStats ;;
          setStats statsData)
         (fun error =>
          setMessages (fun prev => prev ++ [systemMessage (uploadFailedText error)])))
      (setUploading false ;;
       setUploadProgress (Js.Int 0))
  end.

Definition chatErrorText (error : Error) : Js.str :=
  crossMark ++ Js.lit " Error: "
  ++ Js.interpolate (Js.or_else (detail error) (Js.ofStr (message error))).

(** The history entry built from a transcript entry by the [map] callback. *)
Definition toHistoryEntry (msg : Message.t) : HistoryEntry.t :=
  {| HistoryEntry.role := Message.role msg;
     HistoryEntry.content := Message.content msg;
     HistoryEntry.timestamp := Message.timestamp msg |}.

(** [st] is the state of the render whose closure is invoked: [messages],
    [inputValue] and [loading] below are that render's constants. *)
Definition handleSendMessage (st : State) : Proc unit :=
  if negb (Js.truthy (Js.trim (inputValue st))) || loading st then ret tt
  else
    now <- newDateISO ;;
    let userMessage :=
      {| Message.role := user; Message.content := inputValue st;
         Message.sources := None; Message.metadata := None;
         Message.timestamp := Some now |} in
    setMessages (fun prev => prev ++ [userMessage]) ;;
    setInputValue [] ;;
    setLoading true ;;
    tryFinally
      (catch
         (let history :=
            List.map toHistoryEntry
              (List.filter (fun msg => negb (Role_eqb (Message.role msg) system))
                 (messages st)) in
          response <- chatWithContext (inputValue st) history 3 ;;
          now' <- newDateISO ;;
          let assistantMessage :=
            {| Message.role := assistant; Message.content := answer response;
               Message.sources := resp_sources response;
               Message.metadata := resp_metadata response;
               Message.timestamp := Some now' |} in
          setMessages (fun prev => prev ++ [assistantMessage]))
         (fun error =>
          let errorMessage := systemMessage (chatErrorText error) in
          setMessages (fun prev => prev ++ [errorMessage])))
      (setLoading false).

Definition confirmClearText : Js.str :=
  Js.lit "Are you sure you want to delete all documents? This cannot be undone.".

Definition clearedText : Js.str :=
  checkMark ++ Js.lit " All documents cleared successfully".

Definition clearFailedText (error : Error) : Js.str :=
  crossMark ++ Js.lit " Error clearing documents: "
  ++ Js.interpolate (Js.ofStr (message error)).

Definition handleClearDocuments : Proc unit :=
  ok <- confirm confirmClearText ;;
  if negb ok then ret tt
  else
    catch
      (clearAllDocuments ;;
       setMessages (fun _ => [systemMessage clearedText]) ;;
       setDocuments [] ;;
       statsData <- getStats ;;
       setStats statsData)
      (fun error =>
       setMessages (fun prev => prev ++ [systemMessage (clearFailedText error)])).

(** ** Running a handler *)

(** What the user interface supplies to a handler: the clock reading of
    each synchronous segment (segment 0 runs up to the first [await]) and
    the answer to the confirmation dialog. *)
Record Env : Type := { clock : nat -> Js.str; confirmAnswer : bool }.

(** A request as it reaches the transport. *)
Inductive request : Type := Request (ep : endpoint) (b : body ep).

Definition endpointOf (r : request) : endpoint :=
  match r with Request ep _ => ep end.

(** Where a handler stands after a synchronous segment. *)
Inductive Status : Type :=
| Finished
| Uncaught (e : Error)
| Waiting (ep : endpoint) (b : body ep)
          (onp : option (ProgressEvent -> State -> State))
          (k : outcome (data ep) -> Proc unit).

(** One synchronous segment: the queued state updates are applied in
    order to the store, up to the next [await] or the end. *)
Fixpoint advance (env : Env) (tick : nat) (p : Proc unit) (st : State)
  : State * Status :=
  match p with
  | Ret _ => (st, Finished)
  | Throw e => (st, Uncaught e)
  | SetState u k => advance env tick k (u st)
  | Now k => advance env tick (k (clock env tick)) st
  | Confirm _ k => advance env tick (k (confirmAnswer env)) st
  | Http ep b onp k => (st, Waiting ep b onp k)
  end.

(** A progress event delivered while the request is pending. *)
Definition deliver (onp : option (ProgressEvent -> State -> State))
  (ev : ProgressEvent) (st : State) : State :=
  match onp with
  | Some cb => cb ev st
  | None => st
  end.

(** The backend as seen by one handler invocation: for each request, the
    progress events delivered while it is pending, then how it settles.
    (A handler sends at most one request to each endpoint.) *)
Definition Backend : Type :=
  forall ep : endpoint, body ep -> list ProgressEvent * outcome (data ep).

(** A suspension point: the request awaited and the state committed (and
    rendered) while it is pending, before any progress event. *)
Record Suspension : Type := { awaited : request; rendered : State }.

(** A handler run to its end: final state, the suspension points in
    order, and the exception that escaped, if any. *)
Fixpoint run (env : Env) (bk : Backend) (p : Proc unit) (st : State)
  (log : list Suspension) : State * list Suspension * option Error :=
  match p with
  | Ret _ => (st, log, None)
  | Throw e => (st, log, Some e)
  | SetState u k => run env bk k (u st) log
  | Now k => run env bk (k (clock env (List.length log))) st log
  | Confirm _ k => run env bk (k (confirmAnswer env)) st log
  | Http ep b onp k =>
    let st' := fold_left (fun s ev => deliver onp ev s) (fst (bk ep b)) st in
    run env bk (k (snd (bk ep b))) st'
      (log ++ [{| awaited := Request ep b; rendered := st |}])
  end.

Definition finalState (r : State * list Suspension * option Error) : State :=
  fst (fst r).
Definition suspensionsOf (r : State * list Suspension * option Error)
  : list Suspension := snd (fst r).
Definition endpointsOf (r : State * list Suspension * option Error)
  : list endpoint := List.map (fun s => endpointOf (awaited s)) (suspensionsOf r).
Definition escapedOf (r : State * list Suspension * option Error)
  : option Error := snd r.

(** The request a suspended handler waits for, if it is a chat request. *)
Definition chatBodyOf (s : Status) : option ChatBody :=
  match s with
  | Waiting ep b _ _ =>
    match ep return body ep -> option ChatBody with
    | PostChat => fun b => Some b
    | _ => fun _ => None
    end b
  | _ => None
  end.

Fixpoint lastOf {A : Type} (l : list A) : option A :=
  match l with
  | [] => None
  | x :: r => match r with [] => Some x | _ :: _ => lastOf r end
  end.

(** The messages built by [handleSendMessage]. *)
Definition userMessageOf (text now : Js.str) : Message.t :=
  {| Message.role := user; Message.content := text;
     Message.sources := None; Message.metadata := None;
     Message.timestamp := Some now |}.

Definition assistantMessageOf (response : ChatResponse) (now : Js.str) : Message.t :=
  {| Message.role := assistant; Message.content := answer response;
     Message.sources := resp_sources response;
     Message.metadata := resp_metadata response;
     Message.timestamp := Some now |}.

Definition notSystem (msg : Message.t) : bool :=
  negb (Role_eqb (Message.role msg) system).

(** ** A chat session: submissions interleaved with settlements

    Between two events React commits the queued updates and renders, so
    the closure invoked by an event is the one of the committed state.
    [Typing] is the input's [onChange] (the input element is disabled
    while [loading]; typing is allowed at any time here, which only adds
    behaviours); [Send] is the send button or the Enter key; [Settle] is
    the transport settling the oldest pending chat request.  [completed]
    counts the settled turns. *)

Inductive ChatEvent : Type :=
| Typing (text : Js.str)
| Send
| Settle (o : outcome ChatResponse).

Record Session : Type :=
  { store : State;
    tick : nat;
    inflight : list (outcome ChatResponse -> Proc unit);
    outbox : list ChatBody;
    completed : nat }.

(** A segment has run: a handler suspended on a chat request joins the
    pending ones. *)
Definition suspend (r : State * Status) (t : nat)
  (pending : list (outcome ChatResponse -> Proc unit)) (sent : list ChatBody)
  (done : nat) : Session :=
  match snd r with
  | Waiting ep b _ k =>
    match ep return body ep -> (outcome (data ep) -> Proc unit) -> Session with
    | PostChat => fun b k =>
      {| store := fst r; tick := S t; inflight := pending ++ [k];
         outbox := sent ++ [b]; completed := done |}
    | _ => fun _ _ =>
      {| store := fst r; tick := S t; inflight := pending; outbox := sent;
         completed := done |}
    end b k
  | _ =>
    {| store := fst r; tick := S t; inflight := pending; outbox := sent;
       completed := done |}
  end.

Definition step (env : Env) (s : Session) (ev : ChatEvent) : Session :=
  match ev with
  | Typing text =>
    {| store := withInputValue text (store s); tick := S (tick s);
       inflight := inflight s; outbox := outbox s; completed := completed s |}
  | Send =>
    suspend (advance env (tick s) (handleSendMessage (store s)) (store s))
      (tick s) (inflight s) (outbox s) (completed s)
  | Settle o =>
    match inflight s with
    | [] => s
    | k :: rest =>
      suspend (advance env (tick s) (k o) (store s))
        (tick s) rest (outbox s) (S (completed s))
    end
  end.

Definition steps (env : Env) (s : Session) (evs : list ChatEvent) : Session :=
  fold_left (step env) evs s.

Definition isFulfilled (ev : ChatEvent) : bool :=
  match ev with
  | Settle (Rejected _) => false
  | _ => true
  end.

(** [user, assistant] repeated [n] times. *)
Fixpoint alternating (n : nat) : list Role :=
  match n with
  | O => []
  | S m => user :: assistant :: alternating m
  end.

(** ** Vocabulary of the properties *)

(** The guard of [handleSendMessage]: [!inputValue.trim() || loading]. *)
Definition guardRejects (snap : State) : bool :=
  negb (Js.truthy (Js.trim (inputValue snap))) || loading snap.

(** The [filter] and [map] of [handleSendMessage] on a transcript. *)
Definition historyOf (transcript : list Message.t) : list HistoryEntry.t :=
  List.map toHistoryEntry (List.filter notSystem transcript).

Definition idleSession (st : State) : Session :=
  {| store := st; tick := 0; inflight := []; outbox := []; completed := 0 |}.

(** *** Concrete inputs *)

Definition sampleEnv : Env :=
  {| clock := fun n => Js.lit "2024-05-01T10:00:0" ++ Js.ofNat (N.of_nat n) ++ Js.lit ".000Z";
     confirmAnswer := true |}.

Definition sampleTranscript : list Message.t :=
  [ systemMessage (Js.lit "notice");
    userMessageOf (Js.lit "What is the deadline?") (Js.lit "2024-05-01T09:00:00.000Z");
    assistantMessageOf
      {| answer := Js.lit "Friday."; resp_sources := Some [Js.lit "notes.txt"];
         resp_metadata := None |}
      (Js.lit "2024-05-01T09:00:02.000Z") ].

(** A render with three transcript entries and the input [  hi ] (two
    leading blanks, one trailing). *)
Definition sampleSnap : State :=
  withInputValue (Js.lit "  hi ") (withMessages (fun _ => sampleTranscript) initialState).

Definition sampleHistory : list HistoryEntry.t :=
  [ HistoryEntry.mk user (Js.lit "What is the deadline?") (Some (Js.lit "2024-05-01T09:00:00.000Z"));
    HistoryEntry.mk assistant (Js.lit "Friday.") (Some (Js.lit "2024-05-01T09:00:02.000Z")) ].

Definition sampleBody : ChatBody :=
  {| query := Js.lit "  hi "; history := sampleHistory; top_k := 3 |}.

Definition sampleError : Error :=
  {| message := Some (Js.lit "Network Error"); detail := None |}.

Definition sampleResponse : ChatResponse :=
  {| answer := Js.lit "Hello."; resp_sources := Some []; resp_metadata := None |}.

Definition sampleFile : File := {| name := Js.lit "notes.txt"; fileSize := 4096 |}.

Definition sampleUploadResult : UploadResult :=
  {| document := {| doc_num_chunks := 20; doc_filename := Js.lit "notes.txt" |} |}.

Definition sampleHealth : Health :=
  {| ollama_connected := true; chroma_connected := true; model := Js.lit "llama3" |}.

Definition sampleStats : Stats :=
  {| num_chunks := 20; stats_model := Js.lit "llama3";
     embedding_model := Js.lit "nomic"; has_index := true |}.

Definition sampleDoc : DocumentSummary :=
  {| filename := Js.lit "notes.txt"; size := 4096;
     upload_time := Js.lit "2024-05-01T08:00:00.000Z" |}.

(** A backend on which every request is rejected. *)
Definition backendDown : Backend :=
  fun ep _ => ([], Rejected sampleError).

(** A backend on which every request succeeds; the upload reports the
    given progress events. *)
Definition backendUp (evs : list ProgressEvent) : Backend :=
  fun ep =>
    match ep return body ep -> list ProgressEvent * outcome (data ep) with
    | GetHealth => fun _ => ([], Fulfilled sampleHealth)
    | PostUpload => fun _ => (evs, Fulfilled sampleUploadResult)
    | PostQuery => fun _ => ([], Fulfilled {| q_answer := []; q_sources := [] |})
    | PostChat => fun _ => ([], Fulfilled sampleResponse)
    | GetDocuments => fun _ => ([], Fulfilled {| documents_field := Some [sampleDoc] |})
    | DeleteClear => fun _ => ([], Fulfilled tt)
    | GetStats => fun _ => ([], Fulfilled sampleStats)
    end.

(** A backend that is up except for the stats endpoint. *)
Definition backendNoStats : Backend :=
  fun ep =>
    match ep return body ep -> list ProgressEvent * outcome (data ep) with
    | GetStats => fun _ => ([], Rejected sampleError)
    | ep' => backendUp [] ep'
    end.

(** A render with a transcript and one listed document. *)
Definition sampleLoaded : State :=
  withStats (Some sampleStats) (withDocuments [sampleDoc] sampleSnap).

Definition sampleEvents : list ChatEvent :=
  [ Send; Send; Settle (Fulfilled sampleResponse); Send;
    Typing (Js.lit "and then?"); Send; Send; Settle (Fulfilled sampleResponse) ].

(** What a sequence of chat events keeps true: the transcript is the base
    transcript followed by complete user/assistant pairs, one pair per
    completed turn, and by the user entry of the turn in flight, if any;
    [loading] tells whether a turn is in flight, and there is at most one. *)
Definition turnsInvariant (base : list Message.t) (s : Session) : Prop :=
  exists news,
    messages (store s) = base ++ news
    /\ List.length (outbox s) = (completed s + List.length (inflight s))%nat
    /\ ((inflight s = [] /\ loading (store s) = false
         /\ List.map Message.role news = alternating (completed s))
        \/ (exists k, inflight s = [k] /\ loading (store s) = true
            /\ List.map Message.role news = alternating (completed s) ++ [user]
            /\ forall env' t' st' response,
                 advance env' t' (k (Fulfilled response)) st' =
                   (withLoading false
                      (withMessages
                         (fun prev => prev ++ [assistantMessageOf response (clock env' t')]) st'),
                    Finished))).

(** *** Upload progress *)

(** The values handed to the progress callback, one per progress event. *)
Definition progressValues (evs : list ProgressEvent) : list Js.num :=
  List.map percentCompleted evs.




Definition sampleProgress : list ProgressEvent :=
  [ {| loaded := 0; total := Some 4096 |};
    {| loaded := 1024; total := Some 4096 |};
    {| loaded := 1029; total := Some 4096 |};
    {| loaded := 4096; total := Some 4096 |} ].


(** One upload attempt, run to its end. *)
Definition uploadRun (env : Env) (bk : Backend) (st : State) (file : File)
  : State * list Suspension * option Error :=
  run env bk (handleFileUpload (Some file)) st [].




(** The progress callback as [uploadDocument] registers it for
    [handleFileUpload]. *)
Definition uploadProgressHook : option (ProgressEvent -> State -> State) :=
  Some (fun progressEvent => withUploadProgress (percentCompleted progressEvent)).

(** The [finally] block of [handleFileUpload] on the state. *)
Definition resetUpload (st : State) : State :=
  withUploadProgress (Js.Int 0) (withUploading false st).

Definition appendMessage (m : Message.t) (st : State) : State :=
  withMessages (fun prev => prev ++ [m]) st.

Definition suspendedOn (ep : endpoint) (b : body ep) (st : State) : Suspension :=
  {| awaited := Request ep b; rendered := st |}.

(** ** The rest of the component: size formatting and the rendered controls *)

(** The integer [n] for which [n / 100] is closest to [a / d], the larger
    one on a tie: what [toFixed(2)] picks for the quotient.  For [d] a
    power of two and [a] below 2^53 the double [a / d] is the exact
    quotient. *)
Definition hundredths (a d : N) : N := (2 * (a * 100) + d) / (2 * d).

Definition digit (n : N) : N := 48 + n mod 10.

(** The text of [x.toFixed(2)] when [n] is the integer picked for [x]:
    the integer part, a point, two digits. *)
Definition toFixed2 (n : N) : Js.str :=
  Js.ofNat (n / 100) ++ Js.lit "." ++ [digit (n / 10); digit n].

(** [bytes] is a document's [size]: a non-negative integer. *)
Definition formatFileSize (bytes : N) : Js.str :=
  if bytes <? 1024 then Js.ofNat bytes ++ Js.lit " B"
  else if bytes <? 1024 * 1024 then toFixed2 (hundredths bytes 1024) ++ Js.lit " KB"
  else toFixed2 (hundredths bytes (1024 * 1024)) ++ Js.lit " MB".

(** [disabled={loading || !inputValue.trim()}] of the send button. *)
Definition sendDisabled (st : State) : bool :=
  loading st || negb (Js.truthy (Js.trim (inputValue st))).

(** [disabled={loading}] of the text input. *)
Definition inputDisabled (st : State) : bool := loading st.

(** [disabled={uploading}] of the upload button. *)
Definition uploadDisabled (st : State) : bool := uploading st.

(** ** Vocabulary of the further properties *)

(** Roles of complete turns: each a user entry followed by an assistant
    or a system entry. *)
Fixpoint closedTurns (l : list Role) : bool :=
  match l with
  | [] => true
  | user :: r =>
    match r with
    | assistant :: r' => closedTurns r'
    | system :: r' => closedTurns r'
    | _ => false
    end
  | _ => false
  end.

Definition isUser (r : Role) : bool := Role_eqb r user.

(** A request as [handleSendMessage] builds them. *)
Definition wellFormedRequest (b : ChatBody) : Prop :=
  top_k b = 3
  /\ Js.trim (query b) <> []
  /\ Forall (fun h => HistoryEntry.role h <> system) (history b).

(** What every sequence of chat events keeps true, whether the turns
    succeed or fail. *)
Definition sessionInvariant (base : list Message.t) (s : Session) : Prop :=
  exists news,
    messages (store s) = base ++ news
    /\ List.length (outbox s) = (completed s + List.length (inflight s))%nat
    /\ List.length (List.filter isUser (List.map Message.role news))
       = List.length (outbox s)
    /\ Forall wellFormedRequest (outbox s)
    /\ ((inflight s = [] /\ loading (store s) = false
         /\ closedTurns (List.map Message.role news) = true)
        \/ (exists k closed,
              inflight s = [k] /\ loading (store s) = true
              /\ List.map Message.role news = closed ++ [user]
              /\ closedTurns closed = true
              /\ (forall env' t' st' response,
                    advance env' t' (k (Fulfilled response)) st' =
                      (withLoading false
                         (withMessages
                            (fun prev => prev ++ [assistantMessageOf response (clock env' t')]) st'),
                       Finished))
              /\ (forall env' t' st' error,
                    advance env' t' (k (Rejected error)) st' =
                      (withLoading false
                         (withMessages
                            (fun prev => prev ++ [systemMessage (chatErrorText error)]) st'),
                       Finished)))).

(** One chat turn run to its end from the render [snap]. *)
Definition chatRun (env : Env) (bk : Backend) (snap : State)
  : State * list Suspension * option Error :=
  run env bk (handleSendMessage snap) snap [].

(** The request of a chat turn submitted from [snap]. *)
Definition chatRequest (snap : State) : ChatBody :=
  {| query := inputValue snap; history := historyOf (messages snap); top_k := 3 |}.

Definition mixedEvents : list ChatEvent :=
  [ Send; Settle (Rejected sampleError); Send; Typing (Js.lit "again"); Send;
    Send; Settle (Fulfilled sampleResponse); Typing (Js.lit "more"); Send ].

(** A documents response without the [documents] key. *)
Definition backendNoDocumentsKey : Backend :=
  fun ep =>
    match ep return body ep -> list ProgressEvent * outcome (data ep) with
    | GetDocuments => fun _ => ([], Fulfilled {| documents_field := None |})
    | ep' => backendUp [] ep'
    end.

(** A backend that is up except for the documents endpoint. *)
Definition backendNoDocuments : Backend :=
  fun ep =>
    match ep return body ep -> list ProgressEvent * outcome (data ep) with
    | GetDocuments => fun _ => ([], Rejected sampleError)
    | ep' => backendUp sampleProgress ep'
    end.

Definition declineEnv : Env :=
  {| clock := clock sampleEnv; confirmAnswer := false |}.

(** *** Proof steps shared below *)

Ltac splits := repeat match goal with |- _ /\ _ => split end.

(** Use the equations between outcomes left in the context. *)
Ltac settled :=
  repeat match goal with
  | H : Fulfilled _ = Fulfilled _ |- _ => injection H as H; subst
  | H : Rejected _ = Rejected _ |- _ => injection H as H; subst
  end.

(** * Properties *)

(** ** One submission: what [handleSendMessage] reads, queues and sends *)

Lemma lastOf_snoc {A : Type} (l : list A) (x : A) : lastOf (l ++ [x]) = Some x.
Proof.
  induction l as [|a l IH]; [reflexivity|].
  simpl. destruct l; [reflexivity | exact IH].
Qed.

Lemma handleSendMessage_rejected (snap : State) :
  guardRejects snap = true -> handleSendMessage snap = Ret tt.
Proof.
  unfold guardRejects, handleSendMessage. intros ->. reflexivity.
Qed.

Lemma handleSendMessage_accepted (env : Env) (t : nat) (snap st : State) :
  guardRejects snap = false ->
  exists k,
    advance env t (handleSendMessage snap) st =
      (withLoading true (withInputValue []
         (withMessages (fun prev => prev ++ [userMessageOf (inputValue snap) (clock env t)]) st)),
       Waiting PostChat
         {| query := inputValue snap; history := historyOf (messages snap); top_k := 3 |}
         None k)
    /\ (forall env' t' st' response,
          advance env' t' (k (Fulfilled response)) st' =
            (withLoading false
               (withMessages (fun prev => prev ++ [assistantMessageOf response (clock env' t')]) st'),
             Finished))
    /\ (forall env' t' st' error,
          advance env' t' (k (Rejected error)) st' =
            (withLoading false
               (withMessages (fun prev => prev ++ [systemMessage (chatErrorText error)]) st'),
             Finished)).
Proof.
  intros G. unfold handleSendMessage. fold (guardRejects snap). rewrite G.
  cbn. eexists. split; [reflexivity|]. split; intros; reflexivity.
Qed.

Lemma historyOf_no_system (transcript : list Message.t) :
  Forall (fun h => HistoryEntry.role h <> system) (historyOf transcript).
Proof.
  unfold historyOf. induction transcript as [|m ms IH]; simpl.
  - constructor.
  - unfold notSystem at 1. destruct (Message.role m) eqn:R; simpl; auto;
      constructor; auto; simpl; rewrite R; discriminate.
Qed.

Lemma historyOf_length (transcript : list Message.t) :
  (List.length (historyOf transcript) <= List.length transcript)%nat.
Proof.
  unfold historyOf. rewrite length_map. apply filter_length_le.
Qed.

Lemma chatBodyOf_send (env : Env) (t : nat) (snap st : State) (b : ChatBody) :
  chatBodyOf (snd (advance env t (handleSendMessage snap) st)) = Some b ->
  guardRejects snap = false
  /\ b = {| query := inputValue snap; history := historyOf (messages snap); top_k := 3 |}
  /\ fst (advance env t (handleSendMessage snap) st) =
       withLoading true (withInputValue []
         (withMessages (fun prev => prev ++ [userMessageOf (inputValue snap) (clock env t)]) st)).
Proof.
  intros H. destruct (guardRejects snap) eqn:G.
  - rewrite (handleSendMessage_rejected snap G) in H. discriminate.
  - destruct (handleSendMessage_accepted env t snap st G) as (k & E & _).
    rewrite E in *. simpl in H. injection H as <-. auto.
Qed.

(** C1: the history handed to [chatWithContext] holds no [system] entry;
    it is the transcript of the invoking render with the system entries
    filtered out, every other entry reduced to its role, content and
    timestamp. *)
Theorem C1_history_excludes_system (env : Env) (t : nat) (snap st : State) (b : ChatBody) :
  chatBodyOf (snd (advance env t (handleSendMessage snap) st)) = Some b ->
  Forall (fun h => HistoryEntry.role h <> system) (history b)
  /\ history b = List.map toHistoryEntry (List.filter notSystem (messages snap))
  /\ (forall h, In h (history b) ->
        exists msg, In msg (messages snap) /\ Message.role msg <> system
          /\ h = HistoryEntry.mk (Message.role msg) (Message.content msg)
                   (Message.timestamp msg)).
Proof.
  intros H. apply chatBodyOf_send in H. destruct H as (_ & -> & _). simpl.
  split; [apply historyOf_no_system|]. split; [reflexivity|].
  intros h Hin. unfold historyOf in Hin. apply in_map_iff in Hin.
  destruct Hin as (msg & <- & Hin). apply filter_In in Hin. destruct Hin as (Hin & NS).
  exists msg. repeat split; auto.
  unfold notSystem in NS. intros R. rewrite R in NS. discriminate.
Qed.

(** On the sample render the request carries the two non-system entries. *)
Lemma C1_witness :
  chatBodyOf (snd (advance sampleEnv 0 (handleSendMessage sampleSnap) sampleSnap)) = Some sampleBody
  /\ Forall (fun h => HistoryEntry.role h <> system) (history sampleBody).
Proof.
  split; [reflexivity|].
  exact (proj1 (C1_history_excludes_system sampleEnv 0 sampleSnap sampleSnap sampleBody eq_refl)).
Defined.

(** C2 as stated fails: with a transcript of three entries and the input
    [  hi ], the outgoing history ends with the earlier assistant entry,
    and the user message queued by the same submission is not in it. *)
Lemma C2_counterexample :
  chatBodyOf (snd (advance sampleEnv 0 (handleSendMessage sampleSnap) sampleSnap)) = Some sampleBody
  /\ lastOf (messages (fst (advance sampleEnv 0 (handleSendMessage sampleSnap) sampleSnap)))
     = Some (userMessageOf (Js.lit "  hi ") (clock sampleEnv 0))
  /\ lastOf (history sampleBody)
     <> Some (toHistoryEntry (userMessageOf (Js.lit "  hi ") (clock sampleEnv 0)))
  /\ ~ In (toHistoryEntry (userMessageOf (Js.lit "  hi ") (clock sampleEnv 0)))
          (history sampleBody).
Proof.
  split; [reflexivity|]. split; [reflexivity|]. split.
  - vm_compute. discriminate.
  - vm_compute. intros [H|[H|[]]]; discriminate.
Qed.

(** C2 (amended): the history is computed from the transcript of the
    render whose closure runs, that is the transcript before the
    submission; the user message is queued behind that transcript and its
    text travels as the query. *)
Theorem C2_history_is_prior_transcript (env : Env) (t : nat) (snap : State) (b : ChatBody) :
  chatBodyOf (snd (advance env t (handleSendMessage snap) snap)) = Some b ->
  history b = historyOf (messages snap)
  /\ messages (fst (advance env t (handleSendMessage snap) snap))
     = messages snap ++ [userMessageOf (inputValue snap) (clock env t)]
  /\ query b = inputValue snap
  /\ (List.length (history b) <= List.length (messages snap))%nat.
Proof.
  intros H. apply chatBodyOf_send in H. destruct H as (_ & -> & ->). simpl.
  repeat split. apply historyOf_length.
Qed.

(** The amended statement on the sample render. *)
Lemma C2_witness :
  history sampleBody = historyOf (messages sampleSnap)
  /\ messages (fst (advance sampleEnv 0 (handleSendMessage sampleSnap) sampleSnap))
     = messages sampleSnap ++ [userMessageOf (inputValue sampleSnap) (clock sampleEnv 0)]
  /\ query sampleBody = inputValue sampleSnap
  /\ (List.length (history sampleBody) <= List.length (messages sampleSnap))%nat.
Proof.
  exact (C2_history_is_prior_transcript sampleEnv 0 sampleSnap sampleBody eq_refl).
Defined.

(** C10: when the guard lets the submission through, the raw input, not
    the trimmed one, is the content of the queued user entry and the query
    of the request. *)
Theorem C10_raw_input_is_used (env : Env) (t : nat) (snap st : State) (b : ChatBody) :
  chatBodyOf (snd (advance env t (handleSendMessage snap) st)) = Some b ->
  query b = inputValue snap
  /\ messages (fst (advance env t (handleSendMessage snap) st))
     = messages st ++ [userMessageOf (inputValue snap) (clock env t)]
  /\ Message.content (userMessageOf (inputValue snap) (clock env t)) = inputValue snap.
Proof.
  intros H. apply chatBodyOf_send in H. destruct H as (_ & -> & ->). simpl.
  repeat split.
Qed.

(** The sample input trims to [hi] and is sent with its blanks. *)
Lemma C10_witness :
  Js.trim (inputValue sampleSnap) = Js.lit "hi"
  /\ query sampleBody = Js.lit "  hi "
  /\ messages (fst (advance sampleEnv 0 (handleSendMessage sampleSnap) sampleSnap))
     = sampleTranscript ++ [userMessageOf (Js.lit "  hi ") (clock sampleEnv 0)].
Proof.
  split; [reflexivity|].
  destruct (C10_raw_input_is_used sampleEnv 0 sampleSnap sampleSnap sampleBody eq_refl)
    as (Q & M & _).
  split; [exact Q | exact M].
Defined.

(** C5: a submission whose input trims to the empty string, or made while
    a turn awaits its response, changes nothing and sends nothing: the
    handler returns at once, no request is issued, and in a session the
    pending requests are left as they were (the submission is not queued). *)
Theorem C5_blank_or_busy_is_noop (env : Env) (bk : Backend) (t : nat)
  (snap st : State) (log : list Suspension) :
  Js.trim (inputValue snap) = [] \/ loading snap = true ->
  advance env t (handleSendMessage snap) st = (st, Finished)
  /\ run env bk (handleSendMessage snap) st log = (st, log, None)
  /\ (forall s : Session, store s = snap ->
        store (step env s Send) = store s
        /\ List.length (messages (store (step env s Send))) = List.length (messages (store s))
        /\ inflight (step env s Send) = inflight s
        /\ outbox (step env s Send) = outbox s).
Proof.
  intros H.
  assert (G : guardRejects snap = true).
  { unfold guardRejects. destruct H as [-> | ->]; [reflexivity | apply orb_true_r]. }
  rewrite (handleSendMessage_rejected snap G). simpl.
  split; [reflexivity|]. split; [reflexivity|].
  intros s E. unfold step. rewrite E, (handleSendMessage_rejected snap G).
  simpl. repeat split.
Qed.

(** A submission of three blanks leaves the sample state as it is. *)
Lemma C5_witness :
  advance sampleEnv 0 (handleSendMessage (withInputValue (Js.lit "   ") sampleSnap)) sampleSnap
  = (sampleSnap, Finished).
Proof.
  exact (proj1 (C5_blank_or_busy_is_noop sampleEnv backendDown 0
                  (withInputValue (Js.lit "   ") sampleSnap) sampleSnap []
                  (or_introl eq_refl))).
Defined.

(** ** A failed chat turn *)

Lemma deliver_none (evs : list ProgressEvent) (st : State) :
  fold_left (fun s ev => deliver None ev s) evs st = st.
Proof. induction evs as [|ev evs IH]; simpl; auto. Qed.

(** C4: when the chat request is rejected, whatever the error, the turn
    ends with exactly one entry appended behind the user entry it queued
    on submission; that entry is a [system] entry and [loading] is false. *)
Theorem C4_failed_chat_turn (env : Env) (bk : Backend) (snap st : State) (e : Error) :
  guardRejects snap = false ->
  (forall b, snd (bk PostChat b) = Rejected e) ->
  exists pending errorMessage,
    List.map rendered (suspensionsOf (run env bk (handleSendMessage snap) st [])) = [pending]
    /\ endpointsOf (run env bk (handleSendMessage snap) st []) = [PostChat]
    /\ messages pending = messages st ++ [userMessageOf (inputValue snap) (clock env 0)]
    /\ messages (finalState (run env bk (handleSendMessage snap) st []))
       = messages pending ++ [errorMessage]
    /\ Message.role errorMessage = system
    /\ errorMessage = systemMessage (chatErrorText e)
    /\ loading (finalState (run env bk (handleSendMessage snap) st [])) = false
    /\ escapedOf (run env bk (handleSendMessage snap) st []) = None.
Proof.
  intros G F. unfold handleSendMessage. fold (guardRejects snap). rewrite G.
  cbn. rewrite deliver_none, F. cbn.
  eexists. eexists. repeat split.
Qed.

(** A network error on the sample render. *)
Lemma C4_witness :
  messages (finalState (run sampleEnv backendDown (handleSendMessage sampleSnap) sampleSnap []))
  = sampleTranscript
    ++ [userMessageOf (Js.lit "  hi ") (clock sampleEnv 0);
        systemMessage (chatErrorText sampleError)]
  /\ loading (finalState (run sampleEnv backendDown (handleSendMessage sampleSnap) sampleSnap [])) = false.
Proof.
  destruct (C4_failed_chat_turn sampleEnv backendDown sampleSnap sampleSnap sampleError
              eq_refl (fun _ => eq_refl))
    as (pending & em & _ & _ & _ & _ & _ & _ & L & _).
  split; [reflexivity | exact L].
Defined.

(** ** Sequences of chat submissions *)

Lemma alternating_snoc (n : nat) :
  alternating (S n) = alternating n ++ [user; assistant].
Proof.
  induction n as [|n IH]; [reflexivity|].
  simpl in IH |- *. do 2 f_equal. exact IH.
Qed.

Lemma alternating_length (n : nat) : List.length (alternating n) = (2 * n)%nat.
Proof. induction n as [|n IH]; simpl; [reflexivity | rewrite IH; lia]. Qed.

Lemma turnsInvariant_step (env : Env) (base : list Message.t) (s : Session)
  (ev : ChatEvent) :
  isFulfilled ev = true -> turnsInvariant base s -> turnsInvariant base (step env s ev).
Proof.
  intros F (news & M & L & I). destruct ev as [text | | o].
  - exists news. simpl. split; [exact M|]. split; [exact L|]. exact I.
  - unfold step. destruct (guardRejects (store s)) eqn:G.
    + rewrite (handleSendMessage_rejected _ G). unfold suspend. simpl.
      exists news. split; [exact M|]. split; [exact L|]. exact I.
    + destruct I as [(I & Ld & R) | (k & I & Ld & R & K)].
      * destruct (handleSendMessage_accepted env (tick s) (store s) (store s) G)
          as (k & E & K & _).
        rewrite E. unfold suspend. simpl.
        exists (news ++ [userMessageOf (inputValue (store s)) (clock env (tick s))]).
        split; [simpl; rewrite M, app_assoc; reflexivity|].
        split; [simpl; rewrite I in *; rewrite !length_app; simpl in *; lia|].
        right. exists k. simpl. rewrite I. split; [reflexivity|]. split; [reflexivity|].
        split; [rewrite map_app, R; reflexivity | exact K].
      * unfold guardRejects in G. rewrite Ld, orb_true_r in G. discriminate.
  - destruct o as [response | e]; [|discriminate].
    unfold step. destruct I as [(I & Ld & R) | (k & I & Ld & R & K)].
    + rewrite I. exists news. split; [exact M|]. split; [exact L|].
      left. auto.
    + rewrite I, K. unfold suspend. simpl.
      exists (news ++ [assistantMessageOf response (clock env (tick s))]).
      split; [simpl; rewrite M, app_assoc; reflexivity|].
      split; [simpl; rewrite I in L; simpl in *; lia|].
      left. split; [reflexivity|]. split; [reflexivity|].
      cbn [completed]. rewrite alternating_snoc, map_app, R, <- app_assoc. reflexivity.
Qed.

Lemma turnsInvariant_steps (env : Env) (base : list Message.t) (evs : list ChatEvent) :
  forall s, forallb isFulfilled evs = true -> turnsInvariant base s ->
            turnsInvariant base (steps env s evs).
Proof.
  unfold steps. induction evs as [|ev evs IH]; intros s F I; simpl; [exact I|].
  simpl in F. apply andb_prop in F. destruct F as (F1 & F2).
  apply IH; [exact F2|]. apply turnsInvariant_step; assumption.
Qed.

(** C3: from an idle session, after any sequence of typing, submissions
    and successful settlements that leaves no turn in flight, the
    transcript is the prior transcript followed by exactly 2N new entries
    whose roles are user, assistant, user, assistant, ..., where N is the
    number of completed turns, which is also the number of requests sent. *)
Theorem C3_successful_turns_alternate (env : Env) (st : State) (evs : list ChatEvent) :
  loading st = false ->
  forallb isFulfilled evs = true ->
  inflight (steps env (idleSession st) evs) = [] ->
  exists news,
    messages (store (steps env (idleSession st) evs)) = messages st ++ news
    /\ List.length news = (2 * completed (steps env (idleSession st) evs))%nat
    /\ List.map Message.role news = alternating (completed (steps env (idleSession st) evs))
    /\ List.length (outbox (steps env (idleSession st) evs))
       = completed (steps env (idleSession st) evs).
Proof.
  intros Ld F Idle.
  assert (I0 : turnsInvariant (messages st) (idleSession st)).
  { exists []. simpl. rewrite app_nil_r. split; [reflexivity|]. split; [reflexivity|].
    left. auto. }
  destruct (turnsInvariant_steps env (messages st) evs _ F I0) as (news & M & L & I).
  exists news. split; [exact M|].
  destruct I as [(I & _ & R) | (k & I & _)]; [|rewrite Idle in I; discriminate].
  split; [rewrite <- (length_map Message.role), R; apply alternating_length|].
  split; [exact R|]. rewrite L, I. simpl. lia.
Qed.

(** Two completed turns among rejected submissions. *)
Lemma C3_witness :
  completed (steps sampleEnv (idleSession sampleSnap) sampleEvents) = 2%nat
  /\ List.map Message.role (messages (store (steps sampleEnv (idleSession sampleSnap) sampleEvents)))
     = [system; user; assistant; user; assistant; user; assistant]
  /\ exists news,
       messages (store (steps sampleEnv (idleSession sampleSnap) sampleEvents))
       = messages sampleSnap ++ news
       /\ List.length news = 4%nat.
Proof.
  split; [reflexivity|]. split; [reflexivity|].
  destruct (C3_successful_turns_alternate sampleEnv sampleSnap sampleEvents
              eq_refl eq_refl eq_refl) as (news & M & L & _).
  exists news. split; [exact M | exact L].
Defined.

(** ** Clear-all *)

(** C6 as stated fails: the clear request succeeds and the stats refresh
    that follows it inside the same [try] is rejected; the transcript ends
    with two entries, the confirmation and an error entry. *)
Lemma C6_counterexample :
  snd (backendNoStats DeleteClear tt) = Fulfilled tt
  /\ endpointsOf (run sampleEnv backendNoStats handleClearDocuments sampleLoaded [])
     = [DeleteClear; GetStats]
  /\ documents (finalState (run sampleEnv backendNoStats handleClearDocuments sampleLoaded [])) = []
  /\ messages (finalState (run sampleEnv backendNoStats handleClearDocuments sampleLoaded []))
     = [systemMessage clearedText; systemMessage (clearFailedText sampleError)]
  /\ messages (finalState (run sampleEnv backendNoStats handleClearDocuments sampleLoaded []))
     <> [systemMessage clearedText].
Proof.
  repeat split. vm_compute. discriminate.
Qed.

(** C6 (amended): after the user confirms, a successful clear request
    empties the document list and resets the transcript to the single
    confirmation entry, which is the state rendered while the stats are
    fetched again; the transcript stays so when the stats request
    succeeds, and gets one error entry behind the confirmation when it is
    rejected.  A rejected clear request leaves the document list and the
    transcript as they were but for one appended [system] error entry. *)
Theorem C6_clear_all (env : Env) (bk : Backend) (st : State) :
  confirmAnswer env = true ->
  (snd (bk DeleteClear tt) = Fulfilled tt ->
     documents (finalState (run env bk handleClearDocuments st [])) = []
     /\ List.map rendered (suspensionsOf (run env bk handleClearDocuments st []))
        = [st; withDocuments [] (withMessages (fun _ => [systemMessage clearedText]) st)]
     /\ endpointsOf (run env bk handleClearDocuments st []) = [DeleteClear; GetStats]
     /\ (forall s, snd (bk GetStats tt) = Fulfilled s ->
           messages (finalState (run env bk handleClearDocuments st []))
           = [systemMessage clearedText]
           /\ stats (finalState (run env bk handleClearDocuments st [])) = Some s)
     /\ (forall e, snd (bk GetStats tt) = Rejected e ->
           messages (finalState (run env bk handleClearDocuments st []))
           = [systemMessage clearedText; systemMessage (clearFailedText e)]
           /\ stats (finalState (run env bk handleClearDocuments st [])) = stats st))
  /\ (forall e, snd (bk DeleteClear tt) = Rejected e ->
        documents (finalState (run env bk handleClearDocuments st [])) = documents st
        /\ messages (finalState (run env bk handleClearDocuments st []))
           = messages st ++ [systemMessage (clearFailedText e)]
        /\ Message.role (systemMessage (clearFailedText e)) = system
        /\ endpointsOf (run env bk handleClearDocuments st []) = [DeleteClear]).
Proof.
  intros C.
  destruct (bk DeleteClear tt) as [ev1 o1] eqn:E1.
  destruct (bk GetStats tt) as [ev2 o2] eqn:E2.
  unfold handleClearDocuments. cbn. rewrite C. cbn. rewrite E1. cbn.
  rewrite !deliver_none. split.
  - intros ->. cbn. rewrite E2. cbn. rewrite !deliver_none.
    destruct o2 as [s|e]; cbn; splits;
      try reflexivity; intros; try discriminate; settled; split; reflexivity.
  - intros e ->. cbn. splits; reflexivity.
Qed.

(** Clear-all on a backend that is up, and on one that is down. *)
Lemma C6_witness :
  documents (finalState (run sampleEnv (backendUp []) handleClearDocuments sampleLoaded [])) = []
  /\ messages (finalState (run sampleEnv (backendUp []) handleClearDocuments sampleLoaded []))
     = [systemMessage clearedText]
  /\ messages (finalState (run sampleEnv backendDown handleClearDocuments sampleLoaded []))
     = sampleTranscript ++ [systemMessage (clearFailedText sampleError)].
Proof.
  destruct (C6_clear_all sampleEnv (backendUp []) sampleLoaded eq_refl) as (Ok & _).
  destruct (Ok eq_refl) as (D & _ & _ & S & _).
  destruct (C6_clear_all sampleEnv backendDown sampleLoaded eq_refl) as (_ & Ko).
  destruct (Ko sampleError eq_refl) as (_ & M & _).
  split; [exact D|]. split; [exact (proj1 (S sampleStats eq_refl)) | exact M].
Defined.

(** ** Initialization and refresh *)

(** C9 as stated fails: on a refresh with three transcript entries and one
    listed document, a rejected health request leaves a transcript of one
    entry (the earlier entries are gone, nothing was appended) and the
    document list and stats as they were, not at their defaults. *)
Lemma C9_counterexample :
  List.length (messages sampleLoaded) = 3%nat
  /\ messages (finalState (run sampleEnv backendDown initializeApp sampleLoaded []))
     = [systemMessage backendFailedText]
  /\ messages (finalState (run sampleEnv backendDown initializeApp sampleLoaded []))
     <> messages sampleLoaded ++ [systemMessage backendFailedText]
  /\ documents (finalState (run sampleEnv backendDown initializeApp sampleLoaded []))
     = [sampleDoc]
  /\ documents (finalState (run sampleEnv backendDown initializeApp sampleLoaded []))
     <> documents initialState.
Proof.
  repeat split; vm_compute; discriminate.
Qed.

(** C9 (amended): when a request of the sequence health, documents, stats
    is rejected, the later requests are not issued, every state item whose
    fetch did not complete keeps the value it had before the call (its
    default at start-up), and the transcript ends with one [system]
    message; from an empty transcript, as at start-up, that message is the
    one entry appended. *)
Theorem C9_initialization_failure (env : Env) (bk : Backend) (st : State) :
  (forall e, snd (bk GetHealth tt) = Rejected e ->
     endpointsOf (run env bk initializeApp st []) = [GetHealth]
     /\ health (finalState (run env bk initializeApp st [])) = health st
     /\ documents (finalState (run env bk initializeApp st [])) = documents st
     /\ stats (finalState (run env bk initializeApp st [])) = stats st)
  /\ (forall h e, snd (bk GetHealth tt) = Fulfilled h ->
        snd (bk GetDocuments tt) = Rejected e ->
        endpointsOf (run env bk initializeApp st []) = [GetHealth; GetDocuments]
        /\ health (finalState (run env bk initializeApp st [])) = Some h
        /\ documents (finalState (run env bk initializeApp st [])) = documents st
        /\ stats (finalState (run env bk initializeApp st [])) = stats st)
  /\ (forall h d e, snd (bk GetHealth tt) = Fulfilled h ->
        snd (bk GetDocuments tt) = Fulfilled d ->
        snd (bk GetStats tt) = Rejected e ->
        endpointsOf (run env bk initializeApp st []) = [GetHealth; GetDocuments; GetStats]
        /\ health (finalState (run env bk initializeApp st [])) = Some h
        /\ documents (finalState (run env bk initializeApp st [])) = documentsOrEmpty d
        /\ stats (finalState (run env bk initializeApp st [])) = stats st)
  /\ ((exists e, snd (bk GetHealth tt) = Rejected e
                 \/ snd (bk GetDocuments tt) = Rejected e
                 \/ snd (bk GetStats tt) = Rejected e) ->
      lastOf (messages (finalState (run env bk initializeApp st [])))
      = Some (systemMessage backendFailedText)
      /\ escapedOf (run env bk initializeApp st []) = None
      /\ (messages st = [] ->
          messages (finalState (run env bk initializeApp st []))
          = messages st ++ [systemMessage backendFailedText])).
Proof.
  destruct (bk GetHealth tt) as [ev1 o1] eqn:E1.
  destruct (bk GetDocuments tt) as [ev2 o2] eqn:E2.
  destruct (bk GetStats tt) as [ev3 o3] eqn:E3.
  unfold initializeApp. cbn. rewrite E1. cbn. rewrite !deliver_none.
  destruct o1 as [h|e1]; cbn; rewrite ?E2; cbn; rewrite ?deliver_none;
    [destruct o2 as [d|e2]; cbn; rewrite ?E3; cbn; rewrite ?deliver_none;
     [destruct o3 as [s|e3]; cbn|]|].
  all: splits; intros; try discriminate; settled; splits; try reflexivity.
  all: try (intros; discriminate).
  all: try match goal with H : exists _, _ |- _ => destruct H as (? & [H | [H | H]]) end;
    try discriminate.
  all: intros ->; reflexivity.
Qed.

(** Start-up against a backend that is down, and one without stats. *)
Lemma C9_witness :
  endpointsOf (run sampleEnv backendDown initializeApp initialState []) = [GetHealth]
  /\ documents (finalState (run sampleEnv backendDown initializeApp initialState [])) = []
  /\ messages (finalState (run sampleEnv backendDown initializeApp initialState []))
     = [systemMessage backendFailedText]
  /\ endpointsOf (run sampleEnv backendNoStats initializeApp initialState [])
     = [GetHealth; GetDocuments; GetStats]
  /\ stats (finalState (run sampleEnv backendNoStats initializeApp initialState [])) = None.
Proof.
  destruct (C9_initialization_failure sampleEnv backendDown initialState)
    as (A & _ & _ & D).
  destruct (A sampleError eq_refl) as (A1 & _ & A3 & _).
  destruct (D (ex_intro _ sampleError (or_introl eq_refl))) as (_ & _ & D3).
  destruct (C9_initialization_failure sampleEnv backendNoStats initialState)
    as (_ & _ & C & _).
  destruct (C sampleHealth {| documents_field := Some [sampleDoc] |} sampleError
              eq_refl eq_refl eq_refl) as (C1 & _ & _ & C4).
  split; [exact A1|]. split; [exact A3|]. split; [exact (D3 eq_refl)|].
  split; [exact C1 | exact C4].
Defined.

(** ** Upload: progress values and the upload state *)






Lemma lastOf_nonempty {A : Type} (a : A) (l : list A) :
  exists x, lastOf (a :: l) = Some x.
Proof.
  revert a. induction l as [|b l IH]; intros a; [exists a; reflexivity|].
  destruct (IH b) as (x & E). exists x. exact E.
Qed.



(** The state after the progress events of an upload: only the progress
    percentage has moved, to the value of the last event. *)
Lemma progress_delivered (evs : list ProgressEvent) :
  forall st,
  messages (fold_left (fun s ev => deliver uploadProgressHook ev s) evs st) = messages st
  /\ uploading (fold_left (fun s ev => deliver uploadProgressHook ev s) evs st) = uploading st
  /\ uploadProgress (fold_left (fun s ev => deliver uploadProgressHook ev s) evs st)
     = match lastOf (progressValues evs) with
       | Some v => v
       | None => uploadProgress st
       end.
Proof.
  induction evs as [|ev evs IH]; intros st; [simpl; auto|].
  cbn [fold_left]. destruct (IH (deliver uploadProgressHook ev st)) as (M & U & P).
  rewrite M, U, P. split; [reflexivity|]. split; [reflexivity|].
  destruct evs as [|ev' evs]; [reflexivity|].
  change (lastOf (progressValues (ev :: ev' :: evs)))
    with (lastOf (progressValues (ev' :: evs))).
  destruct (lastOf_nonempty (percentCompleted ev') (progressValues evs)) as (v & E).
  change (percentCompleted ev' :: progressValues evs)
    with (progressValues (ev' :: evs)) in E.
  rewrite E. reflexivity.
Qed.

(** The callback given to [uploadDocument] is called once per progress
    event, with the percentage computed from that event. *)
Lemma uploadDocument_callback (file : File) (cb : Js.num -> State -> State) :
  exists k,
    uploadDocument file (Some cb)
    = Http PostUpload file (Some (fun ev => cb (percentCompleted ev))) k.
Proof. eexists. reflexivity. Qed.

(** The four ways an upload attempt can go, read off the handler. *)
Lemma uploadRun_cases (env : Env) (bk : Backend) (st : State) (file : File) :
  let st1 := withUploadProgress (Js.Int 0) (withUploading true st) in
  let st2 := fold_left (fun s ev => deliver uploadProgressHook ev s)
               (fst (bk PostUpload file)) st1 in
  uploadRun env bk st file =
  match snd (bk PostUpload file) with
  | Rejected e =>
    (resetUpload (appendMessage (systemMessage (uploadFailedText e)) st2),
     [suspendedOn PostUpload file st1], None)
  | Fulfilled result =>
    let st3 := appendMessage (systemMessage (uploadedText file result)) st2 in
    match snd (bk GetDocuments tt) with
    | Rejected e =>
      (resetUpload (appendMessage (systemMessage (uploadFailedText e)) st3),
       [suspendedOn PostUpload file st1; suspendedOn GetDocuments tt st3], None)
    | Fulfilled docsData =>
      let st4 := withDocuments (documentsOrEmpty docsData) st3 in
      match snd (bk GetStats tt) with
      | Rejected e =>
        (resetUpload (appendMessage (systemMessage (uploadFailedText e)) st4),
         [suspendedOn PostUpload file st1; suspendedOn GetDocuments tt st3;
          suspendedOn GetStats tt st4], None)
      | Fulfilled statsData =>
        (resetUpload (withStats (Some statsData) st4),
         [suspendedOn PostUpload file st1; suspendedOn GetDocuments tt st3;
          suspendedOn GetStats tt st4], None)
      end
    end
  end.
Proof.
  destruct (bk PostUpload file) as [ev1 o1] eqn:E1.
  destruct (bk GetDocuments tt) as [ev2 o2] eqn:E2.
  destruct (bk GetStats tt) as [ev3 o3] eqn:E3.
  unfold uploadRun, handleFileUpload. cbn. rewrite E1. cbn.
  destruct o1 as [result|e1]; cbn; [|reflexivity].
  rewrite E2. cbn. rewrite deliver_none.
  destruct o2 as [d|e2]; cbn; [|reflexivity].
  rewrite E3. cbn. rewrite deliver_none.
  destruct o3 as [s|e3]; reflexivity.
Qed.

Lemma messages_appendMessage (m : Message.t) (st : State) :
  messages (appendMessage m st) = messages st ++ [m].
Proof. reflexivity. Qed.



Lemma messages_resetUpload (st : State) :
  messages (resetUpload st) = messages st.
Proof. reflexivity. Qed.




(** ** Upload: the values given to the progress callback *)





(** * Further properties of the controller and the transport layer *)

(** ** The submission guard and the send button *)

Lemma trimStart_blank (s : Js.str) :
  Js.trimStart s = [] <-> forallb Js.isWhiteSpace s = true.
Proof.
  induction s as [|c r IH]; simpl; [tauto|].
  destruct (Js.isWhiteSpace c); simpl; [exact IH|].
  split; discriminate.
Qed.

Lemma trimStart_head (s : Js.str) (c : N) (r : Js.str) :
  Js.trimStart s = c :: r -> Js.isWhiteSpace c = false.
Proof.
  induction s as [|a s IH]; simpl; [discriminate|].
  destruct (Js.isWhiteSpace a) eqn:W; [exact IH|].
  intros [= <- _]. exact W.
Qed.

Lemma forallb_rev {A : Type} (f : A -> bool) (l : list A) :
  forallb f (rev l) = forallb f l.
Proof.
  induction l as [|a l IH]; [reflexivity|].
  simpl. rewrite forallb_app, IH. simpl. rewrite andb_true_r. apply andb_comm.
Qed.

Lemma trim_blank (s : Js.str) :
  Js.trim s = [] <-> forallb Js.isWhiteSpace s = true.
Proof.
  unfold Js.trim, Js.trimEnd. split.
  - intros H.
    assert (B : forallb Js.isWhiteSpace (Js.trimStart s) = true).
    { rewrite <- forallb_rev. apply trimStart_blank.
      destruct (Js.trimStart (rev (Js.trimStart s))) as [|x l]; [reflexivity|].
      simpl in H. apply app_eq_nil in H. destruct H as (_ & H). discriminate. }
    destruct (Js.trimStart s) as [|c r] eqn:E; [apply trimStart_blank; exact E|].
    cbn [forallb] in B. rewrite (trimStart_head s c r E) in B. discriminate.
  - intros H. apply trimStart_blank in H. rewrite H. reflexivity.
Qed.

Lemma guardRejects_blank (snap : State) :
  guardRejects snap = true
  <-> (forallb Js.isWhiteSpace (inputValue snap) = true \/ loading snap = true).
Proof.
  unfold guardRejects. rewrite orb_true_iff, <- trim_blank.
  destruct (Js.trim (inputValue snap)); simpl; split; intros [H|H]; auto; discriminate.
Qed.

(** X1: a submission is turned away exactly when a turn is awaiting its
    response or every character of the input is white space (the empty
    input included); otherwise it issues one chat request. *)
Theorem X1_guard_by_content (env : Env) (t : nat) (snap st : State) :
  (forallb Js.isWhiteSpace (inputValue snap) = true \/ loading snap = true ->
     advance env t (handleSendMessage snap) st = (st, Finished))
  /\ (forallb Js.isWhiteSpace (inputValue snap) = false -> loading snap = false ->
        chatBodyOf (snd (advance env t (handleSendMessage snap) st))
        = Some (chatRequest snap)).
Proof.
  split.
  - intros H. apply guardRejects_blank in H.
    rewrite (handleSendMessage_rejected snap H). reflexivity.
  - intros W L.
    assert (G : guardRejects snap = false).
    { destruct (guardRejects snap) eqn:G; [|reflexivity].
      apply guardRejects_blank in G. destruct G as [G|G]; congruence. }
    destruct (handleSendMessage_accepted env t snap st G) as (k & E & _).
    rewrite E. reflexivity.
Qed.

(** A tab and a line feed alone are turned away; one letter among them is
    sent. *)
Lemma X1_witness :
  advance sampleEnv 0 (handleSendMessage (withInputValue [9; 10] sampleSnap)) sampleSnap
  = (sampleSnap, Finished)
  /\ chatBodyOf (snd (advance sampleEnv 0
                        (handleSendMessage (withInputValue [9; 104; 10] sampleSnap)) sampleSnap))
     = Some (chatRequest (withInputValue [9; 104; 10] sampleSnap)).
Proof.
  destruct (X1_guard_by_content sampleEnv 0 (withInputValue [9; 10] sampleSnap) sampleSnap)
    as (A & _).
  destruct (X1_guard_by_content sampleEnv 0 (withInputValue [9; 104; 10] sampleSnap) sampleSnap)
    as (_ & B).
  split; [exact (A (or_introl eq_refl)) | exact (B eq_refl eq_refl)].
Defined.

(** X2: the send button is enabled exactly in the renders where a click
    starts a turn: a click on the enabled button issues the chat request
    with the raw input, and whenever the button is disabled the handler,
    reached through the Enter key, does nothing. *)
Theorem X2_send_button_matches_guard (env : Env) (t : nat) (snap : State) :
  (sendDisabled snap = false ->
     chatBodyOf (snd (advance env t (handleSendMessage snap) snap))
     = Some (chatRequest snap))
  /\ (sendDisabled snap = true ->
        advance env t (handleSendMessage snap) snap = (snap, Finished)).
Proof.
  assert (E : sendDisabled snap = guardRejects snap).
  { unfold sendDisabled, guardRejects. apply orb_comm. }
  rewrite E. split; intros G.
  - destruct (handleSendMessage_accepted env t snap snap G) as (k & K & _).
    rewrite K. reflexivity.
  - rewrite (handleSendMessage_rejected snap G). reflexivity.
Qed.

Lemma X2_witness :
  sendDisabled sampleSnap = false
  /\ chatBodyOf (snd (advance sampleEnv 0 (handleSendMessage sampleSnap) sampleSnap))
     = Some (chatRequest sampleSnap)
  /\ sendDisabled (withLoading true sampleSnap) = true
  /\ advance sampleEnv 0 (handleSendMessage (withLoading true sampleSnap))
       (withLoading true sampleSnap)
     = (withLoading true sampleSnap, Finished).
Proof.
  split; [reflexivity|].
  split; [exact (proj1 (X2_send_button_matches_guard sampleEnv 0 sampleSnap) eq_refl)|].
  split; [reflexivity|].
  exact (proj2 (X2_send_button_matches_guard sampleEnv 0 (withLoading true sampleSnap)) eq_refl).
Defined.

(** ** Chat sessions with failing turns *)

Lemma closedTurns_app (l t : list Role) :
  closedTurns l = true -> closedTurns (l ++ t) = closedTurns t.
Proof.
  assert (H : forall n l, (List.length l <= n)%nat ->
                closedTurns l = true -> closedTurns (l ++ t) = closedTurns t).
  { clear l. induction n as [|n IH]; intros l Hn Hc.
    - destruct l; [reflexivity | simpl in Hn; lia].
    - destruct l as [|a [|b r]]; [reflexivity | destruct a; discriminate |].
      destruct a; try discriminate.
      destruct b; try discriminate; simpl in *; apply IH; auto; lia. }
  apply (H (List.length l)). lia.
Qed.

Lemma isUser_count_snoc (l : list Role) (r : Role) :
  List.length (List.filter isUser (l ++ [r]))
  = (List.length (List.filter isUser l) + (if isUser r then 1 else 0))%nat.
Proof.
  rewrite filter_app, length_app. simpl. destruct (isUser r); reflexivity.
Qed.

Lemma wellFormedRequest_chatRequest (snap : State) :
  guardRejects snap = false -> wellFormedRequest (chatRequest snap).
Proof.
  intros G. unfold wellFormedRequest, chatRequest. simpl.
  split; [reflexivity|]. split; [|apply historyOf_no_system].
  unfold guardRejects in G. apply orb_false_elim in G. destruct G as (G & _).
  intros E. rewrite E in G. discriminate.
Qed.

Lemma sessionInvariant_step (env : Env) (base : list Message.t) (s : Session)
  (ev : ChatEvent) :
  sessionInvariant base s -> sessionInvariant base (step env s ev).
Proof.
  intros (news & M & L & U & W & I). destruct ev as [text | | o].
  - exists news. simpl. split; [exact M|]. split; [exact L|]. split; [exact U|].
    split; [exact W|]. exact I.
  - unfold step. destruct (guardRejects (store s)) eqn:G.
    + rewrite (handleSendMessage_rejected _ G). unfold suspend. simpl.
      exists news. split; [exact M|]. split; [exact L|]. split; [exact U|].
      split; [exact W|]. exact I.
    + destruct I as [(I & Ld & R) | (k & closed & I & Ld & _)];
        [|unfold guardRejects in G; rewrite Ld, orb_true_r in G; discriminate].
      destruct (handleSendMessage_accepted env (tick s) (store s) (store s) G)
        as (k & E & K1 & K2).
      rewrite E. unfold suspend. simpl.
      exists (news ++ [userMessageOf (inputValue (store s)) (clock env (tick s))]).
      split; [simpl; rewrite M, app_assoc; reflexivity|].
      split; [simpl; rewrite I in *; rewrite !length_app; simpl in *; lia|].
      split; [cbn [outbox]; rewrite map_app; cbn [map]; rewrite isUser_count_snoc, U, length_app;
              reflexivity|].
      split; [simpl; apply Forall_app; split; [exact W|];
              constructor; [apply (wellFormedRequest_chatRequest _ G) | constructor]|].
      right. exists k, (List.map Message.role news). simpl. rewrite I.
      split; [reflexivity|]. split; [reflexivity|].
      split; [rewrite map_app; reflexivity|]. split; [exact R|].
      split; [exact K1 | exact K2].
  - unfold step. destruct I as [(I & Ld & R) | (k & closed & I & Ld & R & C & K1 & K2)].
    + rewrite I. exists news. split; [exact M|]. split; [exact L|]. split; [exact U|].
      split; [exact W|]. left. auto.
    + rewrite I. destruct o as [response | e]; [rewrite K1 | rewrite K2];
        unfold suspend; simpl.
      * exists (news ++ [assistantMessageOf response (clock env (tick s))]).
        split; [simpl; rewrite M, app_assoc; reflexivity|].
        split; [simpl; rewrite I in L; simpl in *; lia|].
        split; [cbn [outbox]; rewrite map_app; cbn [map]; rewrite isUser_count_snoc, U; simpl; lia|].
        split; [exact W|].
        left. split; [reflexivity|]. split; [reflexivity|].
        rewrite map_app, R, <- app_assoc. simpl.
        rewrite (closedTurns_app closed _ C). reflexivity.
      * exists (news ++ [systemMessage (chatErrorText e)]).
        split; [simpl; rewrite M, app_assoc; reflexivity|].
        split; [simpl; rewrite I in L; simpl in *; lia|].
        split; [cbn [outbox]; rewrite map_app; cbn [map]; rewrite isUser_count_snoc, U; simpl; lia|].
        split; [exact W|].
        left. split; [reflexivity|]. split; [reflexivity|].
        rewrite map_app, R, <- app_assoc. simpl.
        rewrite (closedTurns_app closed _ C). reflexivity.
Qed.

Lemma sessionInvariant_steps (env : Env) (base : list Message.t) (evs : list ChatEvent) :
  forall s, sessionInvariant base s -> sessionInvariant base (steps env s evs).
Proof.
  unfold steps. induction evs as [|ev evs IH]; intros s I; simpl; [exact I|].
  apply IH. apply sessionInvariant_step. exact I.
Qed.

Lemma sessionInvariant_idle (st : State) :
  loading st = false -> sessionInvariant (messages st) (idleSession st).
Proof.
  intros Ld. exists []. simpl. rewrite app_nil_r.
  split; [reflexivity|]. split; [reflexivity|]. split; [reflexivity|].
  split; [constructor|]. left. auto.
Qed.

(** X3: whatever the order of typing, submissions and settlements, and
    whether the turns succeed or fail, at most one chat request is
    pending, and [loading] is true exactly while one is; the send button
    and the input are then disabled. *)
Theorem X3_one_turn_in_flight (env : Env) (st : State) (evs : list ChatEvent) :
  loading st = false ->
  (List.length (inflight (steps env (idleSession st) evs)) <= 1)%nat
  /\ (loading (store (steps env (idleSession st) evs)) = true
      <-> inflight (steps env (idleSession st) evs) <> [])
  /\ (inflight (steps env (idleSession st) evs) <> [] ->
      sendDisabled (store (steps env (idleSession st) evs)) = true
      /\ inputDisabled (store (steps env (idleSession st) evs)) = true).
Proof.
  intros Ld.
  destruct (sessionInvariant_steps env (messages st) evs _ (sessionInvariant_idle st Ld))
    as (news & _ & _ & _ & _ & [(I & L & _) | (k & closed & I & L & _)]).
  - rewrite I, L. simpl. split; [lia|]. split; [split; [discriminate | congruence]|].
    congruence.
  - rewrite I. unfold sendDisabled, inputDisabled. rewrite L. simpl.
    split; [lia|]. split; [split; [discriminate | reflexivity]|]. auto.
Qed.

Lemma X3_witness :
  List.length (inflight (steps sampleEnv (idleSession sampleSnap) mixedEvents)) = 1%nat
  /\ loading (store (steps sampleEnv (idleSession sampleSnap) mixedEvents)) = true
  /\ (List.length (inflight (steps sampleEnv (idleSession sampleSnap) mixedEvents)) <= 1)%nat.
Proof.
  split; [reflexivity|]. split; [reflexivity|].
  exact (proj1 (X3_one_turn_in_flight sampleEnv sampleSnap mixedEvents eq_refl)).
Defined.

(** X4: over any sequence of chat events, the transcript only grows at
    its end, and the new entries are whole turns, each a user entry
    followed by an assistant entry (success) or a system entry (failure),
    with one more user entry at the end while a turn is pending.  Each
    request sent has put exactly one user entry in the transcript. *)
Theorem X4_turns_with_failures (env : Env) (st : State) (evs : list ChatEvent) :
  loading st = false ->
  exists news,
    messages (store (steps env (idleSession st) evs)) = messages st ++ news
    /\ List.length (List.filter isUser (List.map Message.role news))
       = List.length (outbox (steps env (idleSession st) evs))
    /\ (inflight (steps env (idleSession st) evs) = [] ->
        closedTurns (List.map Message.role news) = true)
    /\ (inflight (steps env (idleSession st) evs) <> [] ->
        exists closed, List.map Message.role news = closed ++ [user]
                       /\ closedTurns closed = true).
Proof.
  intros Ld.
  destruct (sessionInvariant_steps env (messages st) evs _ (sessionInvariant_idle st Ld))
    as (news & M & _ & U & _ & [(I & _ & R) | (k & closed & I & _ & R & C & _)]).
  - exists news. split; [exact M|]. split; [exact U|]. split; [intros _; exact R|].
    intros N. congruence.
  - exists news. split; [exact M|]. split; [exact U|]. rewrite I.
    split; [discriminate|]. intros _. exists closed. auto.
Qed.

Lemma X4_witness :
  List.map Message.role (messages (store (steps sampleEnv (idleSession sampleSnap) mixedEvents)))
  = [system; user; assistant] ++ [user; system; user; assistant; user]
  /\ exists news,
       messages (store (steps sampleEnv (idleSession sampleSnap) mixedEvents))
       = messages sampleSnap ++ news
       /\ List.length (List.filter isUser (List.map Message.role news)) = 3%nat.
Proof.
  split; [reflexivity|].
  destruct (X4_turns_with_failures sampleEnv sampleSnap mixedEvents eq_refl)
    as (news & M & U & _).
  exists news. split; [exact M | exact U].
Defined.

(** X5: every chat request that a session ever sends asks for three
    passages, has a query that does not trim to the empty string, and
    carries a history without [system] entries; and as many requests have
    been sent as turns have completed or are pending. *)
Theorem X5_requests_well_formed (env : Env) (st : State) (evs : list ChatEvent) :
  loading st = false ->
  Forall wellFormedRequest (outbox (steps env (idleSession st) evs))
  /\ List.length (outbox (steps env (idleSession st) evs))
     = (completed (steps env (idleSession st) evs)
        + List.length (inflight (steps env (idleSession st) evs)))%nat.
Proof.
  intros Ld.
  destruct (sessionInvariant_steps env (messages st) evs _ (sessionInvariant_idle st Ld))
    as (news & _ & L & _ & W & _).
  split; [exact W | exact L].
Qed.

Lemma X5_witness :
  List.map query (outbox (steps sampleEnv (idleSession sampleSnap) mixedEvents))
  = [Js.lit "  hi "; Js.lit "again"; Js.lit "more"]
  /\ Forall wellFormedRequest (outbox (steps sampleEnv (idleSession sampleSnap) mixedEvents)).
Proof.
  split; [reflexivity|].
  exact (proj1 (X5_requests_well_formed sampleEnv sampleSnap mixedEvents eq_refl)).
Defined.

(** ** One chat turn, run to its end *)

(** The state rendered while the chat request of a turn is pending. *)
Lemma chatRun_cases (env : Env) (bk : Backend) (snap : State) :
  guardRejects snap = false ->
  let pending :=
    withLoading true (withInputValue []
      (appendMessage (userMessageOf (inputValue snap) (clock env 0)) snap)) in
  chatRun env bk snap =
  match snd (bk PostChat (chatRequest snap)) with
  | Fulfilled response =>
    (withLoading false (appendMessage (assistantMessageOf response (clock env 1)) pending),
     [suspendedOn PostChat (chatRequest snap) pending], None)
  | Rejected e =>
    (withLoading false (appendMessage (systemMessage (chatErrorText e)) pending),
     [suspendedOn PostChat (chatRequest snap) pending], None)
  end.
Proof.
  intros G. destruct (bk PostChat (chatRequest snap)) as [evs o] eqn:E.
  unfold chatRun, handleSendMessage. fold (guardRejects snap). rewrite G.
  cbn. change (bk PostChat _) with (bk PostChat (chatRequest snap)). rewrite E.
  cbn. rewrite deliver_none. destruct o; reflexivity.
Qed.

Lemma historyOf_app (a b : list Message.t) :
  historyOf (a ++ b) = historyOf a ++ historyOf b.
Proof. unfold historyOf. rewrite filter_app, map_app. reflexivity. Qed.

(** X6: a turn whose request succeeds ends with the user entry and the
    assistant entry (answer, sources and metadata of the response)
    appended in this order, the input cleared and [loading] false; one
    request was sent, with the raw input, the prior history and 3. *)
Theorem X6_successful_chat_turn (env : Env) (bk : Backend) (snap : State)
  (response : ChatResponse) :
  guardRejects snap = false ->
  snd (bk PostChat (chatRequest snap)) = Fulfilled response ->
  messages (finalState (chatRun env bk snap))
  = messages snap
    ++ [userMessageOf (inputValue snap) (clock env 0);
        assistantMessageOf response (clock env 1)]
  /\ inputValue (finalState (chatRun env bk snap)) = []
  /\ loading (finalState (chatRun env bk snap)) = false
  /\ List.map awaited (suspensionsOf (chatRun env bk snap))
     = [Request PostChat (chatRequest snap)]
  /\ escapedOf (chatRun env bk snap) = None.
Proof.
  intros G F. rewrite (chatRun_cases env bk snap G). cbv zeta. rewrite F.
  unfold finalState, suspensionsOf, escapedOf. simpl.
  rewrite <- app_assoc. repeat split.
Qed.

Lemma X6_witness :
  messages (finalState (chatRun sampleEnv (backendUp []) sampleSnap))
  = sampleTranscript
    ++ [userMessageOf (Js.lit "  hi ") (clock sampleEnv 0);
        assistantMessageOf sampleResponse (clock sampleEnv 1)]
  /\ inputValue (finalState (chatRun sampleEnv (backendUp []) sampleSnap)) = [].
Proof.
  destruct (X6_successful_chat_turn sampleEnv (backendUp []) sampleSnap sampleResponse
              eq_refl eq_refl) as (M & I & _).
  split; [exact M | exact I].
Defined.

(** X7: how the history grows from one turn to the next.  After a turn
    that succeeded, the history a next submission would send is the
    history of this turn followed by its user entry and its assistant
    entry; after a turn that failed it is followed by the user entry
    alone: the failed question stays in the history, the error entry does
    not enter it. *)
Theorem X7_history_of_next_turn (env : Env) (bk : Backend) (snap : State) :
  guardRejects snap = false ->
  (forall response, snd (bk PostChat (chatRequest snap)) = Fulfilled response ->
     historyOf (messages (finalState (chatRun env bk snap)))
     = history (chatRequest snap)
       ++ [HistoryEntry.mk user (inputValue snap) (Some (clock env 0));
           HistoryEntry.mk assistant (answer response) (Some (clock env 1))])
  /\ (forall e, snd (bk PostChat (chatRequest snap)) = Rejected e ->
        historyOf (messages (finalState (chatRun env bk snap)))
        = history (chatRequest snap)
          ++ [HistoryEntry.mk user (inputValue snap) (Some (clock env 0))]).
Proof.
  intros G. rewrite (chatRun_cases env bk snap G). cbv zeta.
  split; intros x F; rewrite F; unfold finalState; simpl;
    rewrite !historyOf_app; simpl; rewrite <- ?app_assoc; reflexivity.
Qed.

Lemma X7_witness :
  historyOf (messages (finalState (chatRun sampleEnv backendDown sampleSnap)))
  = sampleHistory
    ++ [HistoryEntry.mk user (Js.lit "  hi ") (Some (clock sampleEnv 0))]
  /\ historyOf (messages (finalState (chatRun sampleEnv (backendUp []) sampleSnap)))
     = sampleHistory
       ++ [HistoryEntry.mk user (Js.lit "  hi ") (Some (clock sampleEnv 0));
           HistoryEntry.mk assistant (Js.lit "Hello.") (Some (clock sampleEnv 1))].
Proof.
  destruct (X7_history_of_next_turn sampleEnv backendDown sampleSnap eq_refl) as (_ & B).
  destruct (X7_history_of_next_turn sampleEnv (backendUp []) sampleSnap eq_refl) as (A & _).
  split; [exact (B sampleError eq_refl) | exact (A sampleResponse eq_refl)].
Defined.

(** X8: whatever the input and whatever the backend answers, a chat
    submission lets no exception escape, sends at most one request, and
    leaves the upload state, the document list and the health and stats
    snapshots as they were. *)
Theorem X8_chat_is_contained (env : Env) (bk : Backend) (snap : State) :
  escapedOf (chatRun env bk snap) = None
  /\ (List.length (suspensionsOf (chatRun env bk snap)) <= 1)%nat
  /\ uploading (finalState (chatRun env bk snap)) = uploading snap
  /\ uploadProgress (finalState (chatRun env bk snap)) = uploadProgress snap
  /\ documents (finalState (chatRun env bk snap)) = documents snap
  /\ health (finalState (chatRun env bk snap)) = health snap
  /\ stats (finalState (chatRun env bk snap)) = stats snap
  /\ activeTab (finalState (chatRun env bk snap)) = activeTab snap.
Proof.
  destruct (guardRejects snap) eqn:G.
  - unfold chatRun. rewrite (handleSendMessage_rejected snap G). simpl.
    repeat split. lia.
  - rewrite (chatRun_cases env bk snap G). cbv zeta.
    destruct (snd (bk PostChat (chatRequest snap))); simpl; repeat split; lia.
Qed.

(** ** Uploads, run to their end *)

(** Progress events move the progress percentage and nothing else. *)
Lemma progress_keeps (evs : list ProgressEvent) :
  forall st,
  loading (fold_left (fun s ev => deliver uploadProgressHook ev s) evs st) = loading st
  /\ inputValue (fold_left (fun s ev => deliver uploadProgressHook ev s) evs st) = inputValue st
  /\ health (fold_left (fun s ev => deliver uploadProgressHook ev s) evs st) = health st
  /\ documents (fold_left (fun s ev => deliver uploadProgressHook ev s) evs st) = documents st
  /\ stats (fold_left (fun s ev => deliver uploadProgressHook ev s) evs st) = stats st
  /\ activeTab (fold_left (fun s ev => deliver uploadProgressHook ev s) evs st) = activeTab st.
Proof.
  induction evs as [|ev evs IH]; intros st; [simpl; repeat split|].
  cbn [fold_left]. destruct (IH (deliver uploadProgressHook ev st))
    as (A & B & C & D & E & F).
  rewrite A, B, C, D, E, F. repeat split.
Qed.

(** X9: an upload whose three requests all succeed appends the success
    message with the chunk count, replaces the document list and the
    stats by the fetched ones, and ends not uploading, at 0; the requests
    go out in the order upload, documents, stats. *)
Theorem X9_upload_success (env : Env) (bk : Backend) (st : State) (file : File)
  (result : UploadResult) (docsData : DocsResponse) (statsData : Stats) :
  snd (bk PostUpload file) = Fulfilled result ->
  snd (bk GetDocuments tt) = Fulfilled docsData ->
  snd (bk GetStats tt) = Fulfilled statsData ->
  messages (finalState (uploadRun env bk st file))
  = messages st ++ [systemMessage (uploadedText file result)]
  /\ documents (finalState (uploadRun env bk st file)) = documentsOrEmpty docsData
  /\ stats (finalState (uploadRun env bk st file)) = Some statsData
  /\ uploading (finalState (uploadRun env bk st file)) = false
  /\ uploadProgress (finalState (uploadRun env bk st file)) = Js.Int 0
  /\ endpointsOf (uploadRun env bk st file) = [PostUpload; GetDocuments; GetStats].
Proof.
  intros U D S. rewrite (uploadRun_cases env bk st file). cbv zeta.
  rewrite U, D, S.
  destruct (progress_delivered (fst (bk PostUpload file))
              (withUploadProgress (Js.Int 0) (withUploading true st))) as (M & _).
  unfold finalState, endpointsOf, suspensionsOf. cbn [fst snd].
  split; [|repeat split].
  change (messages
            (fold_left (fun s ev => deliver uploadProgressHook ev s)
               (fst (bk PostUpload file))
               (withUploadProgress (Js.Int 0) (withUploading true st)))
          ++ [systemMessage (uploadedText file result)]
          = messages st ++ [systemMessage (uploadedText file result)]).
  rewrite M. reflexivity.
Qed.

Lemma X9_witness :
  messages (finalState (uploadRun sampleEnv (backendUp sampleProgress) sampleSnap sampleFile))
  = sampleTranscript ++ [systemMessage (uploadedText sampleFile sampleUploadResult)]
  /\ uploadedText sampleFile sampleUploadResult
     = checkMark ++ Js.lit " Document " ++ dquote ++ Js.lit "notes.txt" ++ dquote
       ++ Js.lit " uploaded successfully! (20 chunks)"
  /\ documents (finalState (uploadRun sampleEnv (backendUp sampleProgress) sampleSnap sampleFile))
     = [sampleDoc].
Proof.
  destruct (X9_upload_success sampleEnv (backendUp sampleProgress) sampleSnap sampleFile
              sampleUploadResult {| documents_field := Some [sampleDoc] |} sampleStats
              eq_refl eq_refl eq_refl) as (M & D & _).
  split; [exact M|]. split; [reflexivity | exact D].
Defined.

(** X10: when the upload itself succeeds and a refresh request after it is
    rejected, the transcript gets the success message and then an upload
    failure message.  If the documents request is the one rejected, the
    document list and the stats keep their earlier values and the stats
    are not requested; if the stats request is, the document list is the
    fetched one and the stats keep their earlier value. *)
Theorem X10_upload_refresh_failure (env : Env) (bk : Backend) (st : State)
  (file : File) (result : UploadResult) (e : Error) :
  snd (bk PostUpload file) = Fulfilled result ->
  (snd (bk GetDocuments tt) = Rejected e ->
     messages (finalState (uploadRun env bk st file))
     = messages st ++ [systemMessage (uploadedText file result);
                       systemMessage (uploadFailedText e)]
     /\ documents (finalState (uploadRun env bk st file)) = documents st
     /\ stats (finalState (uploadRun env bk st file)) = stats st
     /\ endpointsOf (uploadRun env bk st file) = [PostUpload; GetDocuments])
  /\ (forall docsData, snd (bk GetDocuments tt) = Fulfilled docsData ->
        snd (bk GetStats tt) = Rejected e ->
        messages (finalState (uploadRun env bk st file))
        = messages st ++ [systemMessage (uploadedText file result);
                          systemMessage (uploadFailedText e)]
        /\ documents (finalState (uploadRun env bk st file)) = documentsOrEmpty docsData
        /\ stats (finalState (uploadRun env bk st file)) = stats st).
Proof.
  intros U. rewrite (uploadRun_cases env bk st file). cbv zeta. rewrite U.
  destruct (progress_delivered (fst (bk PostUpload file))
              (withUploadProgress (Js.Int 0) (withUploading true st))) as (M & _).
  destruct (progress_keeps (fst (bk PostUpload file))
              (withUploadProgress (Js.Int 0) (withUploading true st)))
    as (_ & _ & _ & D & S & _).
  split.
  - intros ->. unfold finalState, endpointsOf, suspensionsOf. cbn [fst snd].
    split; [|split; [exact D | split; [exact S | reflexivity]]].
    rewrite messages_resetUpload, !messages_appendMessage, M, <- app_assoc. reflexivity.
  - intros docsData -> ->. unfold finalState. cbn [fst snd].
    split; [|split; [reflexivity | exact S]].
    rewrite messages_resetUpload, messages_appendMessage.
    change (messages (withDocuments (documentsOrEmpty docsData) ?x)) with (messages x).
    rewrite messages_appendMessage, M, <- app_assoc. reflexivity.
Qed.

Lemma X10_witness :
  messages (finalState (uploadRun sampleEnv backendNoDocuments sampleLoaded sampleFile))
  = sampleTranscript ++ [systemMessage (uploadedText sampleFile sampleUploadResult);
                         systemMessage (uploadFailedText sampleError)]
  /\ documents (finalState (uploadRun sampleEnv backendNoDocuments sampleLoaded sampleFile))
     = [sampleDoc].
Proof.
  destruct (X10_upload_refresh_failure sampleEnv backendNoDocuments sampleLoaded sampleFile
              sampleUploadResult sampleError eq_refl) as (A & _).
  destruct (A eq_refl) as (M & D & _).
  split; [exact M | exact D].
Defined.

(** X11: whatever the backend answers, an upload attempt sends at most
    three requests, keeps [uploading] true in every state rendered while
    one of them is pending (the upload button stays disabled for the whole
    attempt, refreshes included), appends one or two entries to the
    transcript, all of them [system] entries, and leaves the chat input,
    the [loading] flag and the health snapshot as they were. *)
Theorem X11_upload_is_contained (env : Env) (bk : Backend) (st : State) (file : File) :
  (List.length (suspensionsOf (uploadRun env bk st file)) <= 3)%nat
  /\ Forall (fun s => uploadDisabled (rendered s) = true)
       (suspensionsOf (uploadRun env bk st file))
  /\ (exists news,
        messages (finalState (uploadRun env bk st file)) = messages st ++ news
        /\ Forall (fun m => Message.role m = system) news
        /\ (1 <= List.length news <= 2)%nat)
  /\ loading (finalState (uploadRun env bk st file)) = loading st
  /\ inputValue (finalState (uploadRun env bk st file)) = inputValue st
  /\ health (finalState (uploadRun env bk st file)) = health st.
Proof.
  rewrite (uploadRun_cases env bk st file). cbv zeta.
  destruct (progress_delivered (fst (bk PostUpload file))
              (withUploadProgress (Js.Int 0) (withUploading true st))) as (M & U & _).
  destruct (progress_keeps (fst (bk PostUpload file))
              (withUploadProgress (Js.Int 0) (withUploading true st)))
    as (L & I & H & _).
  unfold uploadDisabled.
  destruct (snd (bk PostUpload file)) as [result|e1];
    [destruct (snd (bk GetDocuments tt)) as [d|e2];
     [destruct (snd (bk GetStats tt)) as [s|e3]|]|];
    unfold finalState, suspensionsOf; cbn [fst snd].
  all: split; [simpl; lia|].
  all: split; [repeat constructor; exact U|].
  all: split; [|split; [exact L | split; [exact I | exact H]]].
  - exists [systemMessage (uploadedText file result)].
    split; [|split; [repeat constructor | simpl; lia]].
    change (messages
              (fold_left (fun s ev => deliver uploadProgressHook ev s)
                 (fst (bk PostUpload file))
                 (withUploadProgress (Js.Int 0) (withUploading true st)))
            ++ [systemMessage (uploadedText file result)]
            = messages st ++ [systemMessage (uploadedText file result)]).
    rewrite M. reflexivity.
  - exists [systemMessage (uploadedText file result); systemMessage (uploadFailedText e3)].
    split; [|split; [repeat constructor | simpl; lia]].
    rewrite messages_resetUpload, messages_appendMessage.
    change (messages (withDocuments (documentsOrEmpty d) ?x)) with (messages x).
    rewrite messages_appendMessage, M, <- app_assoc. reflexivity.
  - exists [systemMessage (uploadedText file result); systemMessage (uploadFailedText e2)].
    split; [|split; [repeat constructor | simpl; lia]].
    rewrite messages_resetUpload, !messages_appendMessage, M, <- app_assoc. reflexivity.
  - exists [systemMessage (uploadFailedText e1)].
    split; [|split; [repeat constructor | simpl; lia]].
    rewrite messages_resetUpload, messages_appendMessage, M. reflexivity.
Qed.

(** ** Clear-all and initialization, the remaining paths *)

(** X12: clear-all sends the delete request only after the user has
    confirmed: when the confirmation is declined no request is sent and
    nothing changes, and whenever a request was sent the user had
    confirmed and the first request is the delete request. *)
Theorem X12_clear_needs_confirmation (env : Env) (bk : Backend) (st : State) :
  (confirmAnswer env = false ->
     run env bk handleClearDocuments st [] = (st, [], None))
  /\ (endpointsOf (run env bk handleClearDocuments st []) <> [] ->
        confirmAnswer env = true
        /\ List.hd_error (endpointsOf (run env bk handleClearDocuments st []))
           = Some DeleteClear).
Proof.
  destruct (bk DeleteClear tt) as [ev1 o1] eqn:E1.
  destruct (bk GetStats tt) as [ev2 o2] eqn:E2.
  unfold handleClearDocuments. cbn. destruct (confirmAnswer env); cbn.
  - split; [discriminate|]. intros _. split; [reflexivity|].
    rewrite E1. cbn. destruct o1 as [u|e]; cbn; [|reflexivity].
    rewrite E2. cbn. destruct o2; reflexivity.
  - split; [reflexivity|]. intros H. exfalso. apply H. reflexivity.
Qed.

Lemma X12_witness :
  run declineEnv (backendUp []) handleClearDocuments sampleLoaded [] = (sampleLoaded, [], None)
  /\ List.hd_error (endpointsOf (run sampleEnv (backendUp []) handleClearDocuments sampleLoaded []))
     = Some DeleteClear.
Proof.
  split.
  - exact (proj1 (X12_clear_needs_confirmation declineEnv (backendUp []) sampleLoaded) eq_refl).
  - refine (proj2 (proj2 (X12_clear_needs_confirmation sampleEnv (backendUp []) sampleLoaded) _)).
    vm_compute. discriminate.
Defined.

(** X13: when health, documents and stats are all fetched, initialization
    stores the three results, leaves the transcript untouched and lets
    nothing escape; run again against the same backend it changes nothing
    more, so a refresh is idempotent. *)
Theorem X13_initialization_success (env : Env) (bk : Backend) (st : State)
  (h : Health) (docsData : DocsResponse) (statsData : Stats) :
  snd (bk GetHealth tt) = Fulfilled h ->
  snd (bk GetDocuments tt) = Fulfilled docsData ->
  snd (bk GetStats tt) = Fulfilled statsData ->
  finalState (run env bk initializeApp st [])
  = withStats (Some statsData)
      (withDocuments (documentsOrEmpty docsData) (withHealth (Some h) st))
  /\ messages (finalState (run env bk initializeApp st [])) = messages st
  /\ endpointsOf (run env bk initializeApp st []) = [GetHealth; GetDocuments; GetStats]
  /\ escapedOf (run env bk initializeApp st []) = None
  /\ finalState (run env bk initializeApp (finalState (run env bk initializeApp st [])) [])
     = finalState (run env bk initializeApp st []).
Proof.
  intros H D S.
  assert (R : forall st0,
            run env bk initializeApp st0 []
            = (withStats (Some statsData)
                 (withDocuments (documentsOrEmpty docsData) (withHealth (Some h) st0)),
               [suspendedOn GetHealth tt st0;
                suspendedOn GetDocuments tt (withHealth (Some h) st0);
                suspendedOn GetStats tt
                  (withDocuments (documentsOrEmpty docsData) (withHealth (Some h) st0))],
               None)).
  { intros st0.
    destruct (bk GetHealth tt) as [ev1 o1] eqn:E1.
    destruct (bk GetDocuments tt) as [ev2 o2] eqn:E2.
    destruct (bk GetStats tt) as [ev3 o3] eqn:E3.
    simpl in H, D, S. subst.
    unfold initializeApp. cbn. rewrite E1. cbn. rewrite E2. cbn. rewrite E3. cbn.
    rewrite !deliver_none. reflexivity. }
  rewrite !R. unfold finalState, endpointsOf, suspensionsOf, escapedOf. simpl.
  repeat split.
Qed.

Lemma X13_witness :
  health (finalState (run sampleEnv (backendUp []) initializeApp initialState [])) = Some sampleHealth
  /\ documents (finalState (run sampleEnv (backendUp []) initializeApp initialState [])) = [sampleDoc]
  /\ messages (finalState (run sampleEnv (backendUp []) initializeApp initialState [])) = [].
Proof.
  destruct (X13_initialization_success sampleEnv (backendUp []) initialState sampleHealth
              {| documents_field := Some [sampleDoc] |} sampleStats eq_refl eq_refl eq_refl)
    as (F & M & _).
  split; [rewrite F; reflexivity|]. split; [rewrite F; reflexivity | exact M].
Defined.

(** X14: a documents response without the [documents] key is read as the
    empty list: initialization then empties the document list instead of
    failing, and goes on to fetch the stats. *)
Theorem X14_missing_documents_key (env : Env) (bk : Backend) (st : State) (h : Health) :
  snd (bk GetHealth tt) = Fulfilled h ->
  snd (bk GetDocuments tt) = Fulfilled {| documents_field := None |} ->
  documents (finalState (run env bk initializeApp st [])) = []
  /\ List.firstn 3 (endpointsOf (run env bk initializeApp st []))
     = [GetHealth; GetDocuments; GetStats]
  /\ (forall statsData, snd (bk GetStats tt) = Fulfilled statsData ->
        messages (finalState (run env bk initializeApp st [])) = messages st).
Proof.
  intros H D.
  destruct (bk GetHealth tt) as [ev1 o1] eqn:E1.
  destruct (bk GetDocuments tt) as [ev2 o2] eqn:E2.
  destruct (bk GetStats tt) as [ev3 o3] eqn:E3.
  simpl in H, D. subst.
  unfold initializeApp. cbn. rewrite E1. cbn. rewrite E2. cbn. rewrite E3. cbn.
  rewrite !deliver_none. destruct o3 as [s|e]; cbn; splits; try reflexivity;
    intros; try discriminate; reflexivity.
Qed.

Lemma X14_witness :
  documents (finalState (run sampleEnv backendNoDocumentsKey initializeApp sampleLoaded [])) = []
  /\ documents sampleLoaded = [sampleDoc].
Proof.
  split; [|reflexivity].
  exact (proj1 (X14_missing_documents_key sampleEnv backendNoDocumentsKey sampleLoaded
                  sampleHealth eq_refl eq_refl)).
Defined.

(** X15: neither initialization nor a confirmed or declined clear-all
    lets an exception escape, whatever the backend answers, and neither
    touches the chat input, the [loading] flag or the upload state. *)
Theorem X15_init_and_clear_are_contained (env : Env) (bk : Backend) (st : State) :
  (escapedOf (run env bk initializeApp st []) = None
   /\ inputValue (finalState (run env bk initializeApp st [])) = inputValue st
   /\ loading (finalState (run env bk initializeApp st [])) = loading st
   /\ uploading (finalState (run env bk initializeApp st [])) = uploading st)
  /\ (escapedOf (run env bk handleClearDocuments st []) = None
      /\ inputValue (finalState (run env bk handleClearDocuments st [])) = inputValue st
      /\ loading (finalState (run env bk handleClearDocuments st [])) = loading st
      /\ uploading (finalState (run env bk handleClearDocuments st [])) = uploading st
      /\ health (finalState (run env bk handleClearDocuments st [])) = health st).
Proof.
  destruct (bk GetHealth tt) as [ev1 o1] eqn:E1.
  destruct (bk GetDocuments tt) as [ev2 o2] eqn:E2.
  destruct (bk GetStats tt) as [ev3 o3] eqn:E3.
  destruct (bk DeleteClear tt) as [ev4 o4] eqn:E4.
  split.
  - unfold initializeApp. cbn. rewrite E1. cbn. rewrite !deliver_none.
    destruct o1 as [h|e1]; cbn; rewrite ?E2; cbn; rewrite ?deliver_none;
      [destruct o2 as [d|e2]; cbn; rewrite ?E3; cbn; rewrite ?deliver_none;
       [destruct o3 as [s|e3]; cbn|]|]; repeat split.
  - unfold handleClearDocuments. cbn. destruct (confirmAnswer env); cbn;
      [|repeat split].
    rewrite E4. cbn. rewrite !deliver_none.
    destruct o4 as [u|e4]; cbn; rewrite ?E3; cbn; rewrite ?deliver_none;
      [destruct o3 as [s|e3]; cbn|]; repeat split.
Qed.

(** ** What the other handlers do to the conversation history *)

Lemma historyOf_system (news : list Message.t) :
  Forall (fun m => Message.role m = system) news -> historyOf news = [].
Proof.
  induction 1 as [|m news R _ IH]; [reflexivity|].
  unfold historyOf in *. simpl. unfold notSystem at 1. rewrite R. simpl. exact IH.
Qed.

(** X16: an upload attempt, however it ends, does not change the history
    that the next chat submission sends: its messages are [system]
    entries, which the history leaves out. *)
Theorem X16_upload_keeps_history (env : Env) (bk : Backend) (st : State) (file : File) :
  historyOf (messages (finalState (uploadRun env bk st file))) = historyOf (messages st)
  /\ history (chatRequest (withInputValue (inputValue st)
                             (finalState (uploadRun env bk st file))))
     = history (chatRequest st).
Proof.
  assert (H : historyOf (messages (finalState (uploadRun env bk st file)))
              = historyOf (messages st)).
  { rewrite (uploadRun_cases env bk st file). cbv zeta.
    destruct (progress_delivered (fst (bk PostUpload file))
                (withUploadProgress (Js.Int 0) (withUploading true st))) as (M & _).
    destruct (snd (bk PostUpload file)) as [result|e1];
      [destruct (snd (bk GetDocuments tt)) as [d|e2];
       [destruct (snd (bk GetStats tt)) as [s|e3]|]|];
      unfold finalState; cbn [fst snd];
      rewrite ?messages_resetUpload;
      try change (messages (withStats ?a ?x)) with (messages x);
      rewrite ?messages_appendMessage;
      try change (messages (withDocuments ?a ?x)) with (messages x);
      rewrite ?messages_appendMessage, M, !historyOf_app; simpl;
      rewrite ?app_nil_r; reflexivity. }
  split; [exact H|]. simpl. exact H.
Qed.

(** X17: after a confirmed clear-all whose delete request succeeded, the
    next chat submission sends an empty history, whether the stats
    refresh succeeded or not: the earlier conversation is forgotten with
    the documents. *)
Theorem X17_clear_forgets_history (env : Env) (bk : Backend) (st : State) :
  confirmAnswer env = true ->
  snd (bk DeleteClear tt) = Fulfilled tt ->
  historyOf (messages (finalState (run env bk handleClearDocuments st []))) = []
  /\ forall text,
       history (chatRequest (withInputValue text
                               (finalState (run env bk handleClearDocuments st [])))) = [].
Proof.
  intros C D.
  assert (H : historyOf (messages (finalState (run env bk handleClearDocuments st []))) = []).
  { destruct (bk DeleteClear tt) as [ev1 o1] eqn:E1.
    destruct (bk GetStats tt) as [ev2 o2] eqn:E2.
    simpl in D. subst.
    unfold handleClearDocuments. cbn. rewrite C. cbn. rewrite E1. cbn.
    rewrite ?deliver_none, ?E2. cbn. rewrite ?deliver_none, ?E2. cbn.
    destruct o2; reflexivity. }
  split; [exact H|]. intros text. simpl. exact H.
Qed.

Lemma X17_witness :
  historyOf (messages sampleLoaded) = sampleHistory
  /\ historyOf (messages (finalState (run sampleEnv backendNoStats handleClearDocuments
                                        sampleLoaded []))) = [].
Proof.
  split; [reflexivity|].
  exact (proj1 (X17_clear_forgets_history sampleEnv backendNoStats sampleLoaded
                  eq_refl eq_refl)).
Defined.

(** ** File sizes in the document list *)

Lemma hundredths_bounds (a d : N) :
  0 < d ->
  2 * d * hundredths a d <= 200 * a + d < 2 * d * hundredths a d + 2 * d.
Proof.
  intros Hd. unfold hundredths.
  pose proof (N.Div0.mul_div_le (2 * (a * 100) + d) (2 * d)) as L.
  pose proof (N.mul_succ_div_gt (2 * (a * 100) + d) (2 * d)) as U.
  lia.
Qed.

(** X19: the unit and the precision of a displayed size.  Below 1024
    bytes the byte count itself is shown; from 1024 up to 1048575 the size
    is shown in KB, from 1048576 in MB, as the hundredths [n] closest to
    the exact quotient (at most half a hundredth away), so the KB figure
    lies between 1.00 and 1024.00 and the MB figure is at least 1.00. *)
Theorem X19_file_size_units (bytes : N) :
  (bytes < 1024 -> formatFileSize bytes = Js.ofNat bytes ++ Js.lit " B")
  /\ (1024 <= bytes < 1048576 ->
        formatFileSize bytes = toFixed2 (hundredths bytes 1024) ++ Js.lit " KB"
        /\ 100 <= hundredths bytes 1024 <= 102400
        /\ 1024 * hundredths bytes 1024 <= 100 * bytes + 512
           < 1024 * hundredths bytes 1024 + 1024)
  /\ (1048576 <= bytes ->
        formatFileSize bytes = toFixed2 (hundredths bytes 1048576) ++ Js.lit " MB"
        /\ 100 <= hundredths bytes 1048576
        /\ 1048576 * hundredths bytes 1048576 <= 100 * bytes + 524288
           < 1048576 * hundredths bytes 1048576 + 1048576).
Proof.
  unfold formatFileSize. change (1024 * 1024) with 1048576. splits.
  - intros H. destruct (N.ltb_spec bytes 1024); [reflexivity | lia].
  - intros H. destruct (N.ltb_spec bytes 1024); [lia|].
    destruct (N.ltb_spec bytes 1048576); [|lia].
    pose proof (hundredths_bounds bytes 1024 eq_refl). splits; try reflexivity; lia.
  - intros H. destruct (N.ltb_spec bytes 1024); [lia|].
    destruct (N.ltb_spec bytes 1048576); [lia|].
    pose proof (hundredths_bounds bytes 1048576 eq_refl). splits; try reflexivity; lia.
Qed.

Lemma X19_witness :
  formatFileSize 1536 = Js.lit "1.50 KB"
  /\ formatFileSize 5000000 = Js.lit "4.77 MB"
  /\ formatFileSize 512 = Js.lit "512 B"
  /\ 100 <= hundredths 1536 1024 <= 102400.
Proof.
  split; [reflexivity|]. split; [reflexivity|]. split; [reflexivity|].
  destruct (X19_file_size_units 1536) as (_ & K & _).
  assert (R : 1024 <= 1536 < 1048576) by lia.
  exact (proj1 (proj2 (K R))).
Defined.

(** X20: the last five byte counts below one mebibyte are shown as
    [1024.00 KB]: the unit is chosen from the byte count before the
    quotient is rounded, so the KB figure can reach 1024.00. *)
Theorem X20_file_size_rollover (bytes : N) :
  1048571 <= bytes < 1048576 -> formatFileSize bytes = Js.lit "1024.00 KB".
Proof.
  intros H. unfold formatFileSize. change (1024 * 1024) with 1048576.
  destruct (N.ltb_spec bytes 1024); [lia|].
  destruct (N.ltb_spec bytes 1048576); [|lia].
  assert (E : hundredths bytes 1024 = 102400).
  { pose proof (hundredths_bounds bytes 1024 eq_refl). lia. }
  rewrite E. reflexivity.
Qed.

Lemma X20_witness :
  formatFileSize 1048575 = Js.lit "1024.00 KB" /\ formatFileSize 1048576 = Js.lit "1.00 MB".
Proof.
  split; [|reflexivity].
  apply X20_file_size_rollover. lia.
Defined.

(** ** The progress percentage, outside the steady case *)


